(** * squirrel_cam_vid.py: the detect / record / cool-down loop

    A shallow embedding of [main] of [squirrel_cam_vid.py].  The pure
    pieces of the loop body (cool-down test, trigger reduction, pacing
    arithmetic, file naming) are functions; the loop itself is a
    transition function over program locations named after the source
    lines, driven by one [Input] per executed statement.

    Python floats holding seconds are idealised as rationals ([Q]); the
    literals [0.5], [5], [30], [60] are exact in both. *)

From Stdlib Require Import List Bool Arith ZArith String Ascii QArith Qminmax Lia Lqa.
From Stdlib Require Import Permutation.
Import ListNotations.

Open Scope Q_scope.

(** ** Configuration (lines 13-18) *)

Definition TARGET_OBJECTS : list string :=
  ["cat"; "bear"; "person"; "dog"; "bird"; "squirrel"; "rabbit"]%string.
Definition VIDEO_FOLDER : string := "squirrel_videos"%string.
Definition DETECTION_INTERVAL_SECONDS : Q := 5.
Definition VIDEO_DURATION_SECONDS : Q := 60.
Definition COOLDOWN_SECONDS : Q := 30.

(** The two literals of the loop body: the settle delay of line 76 and the
    idle delay of line 57. *)
Definition SETTLE_SECONDS : Q := 1 # 2.
Definition IDLE_SECONDS : Q := 1.

(** Strict comparison of two readings, as a boolean. *)
Definition Qltb (x y : Q) : bool := negb (Qle_bool y x).

(** ** Cool-down test (line 56) *)

(** [(current_time - last_detection_time) < cooldown] *)
Definition cooling_down (current_time last_detection_time cooldown : Q) : bool :=
  Qltb (current_time - last_detection_time) cooldown.

(** The gate is open when line 56 does not take the [continue] branch. *)
Definition isQuiet (now lastRecordingEndedAt cooldownDuration : Q) : bool :=
  negb (cooling_down now lastRecordingEndedAt cooldownDuration).

(** ** Pacing (lines 105-107) *)

(** [DETECTION_INTERVAL_SECONDS - (time.time() - current_time)] *)
Definition time_to_next_detection (current_time now : Q) : Q :=
  DETECTION_INTERVAL_SECONDS - (now - current_time).

(** Line 106-107: [Some d] when [time.sleep(d)] is called, [None] when the
    statement is skipped. *)
Definition pacing_sleep (t : Q) : option Q :=
  if Qltb 0 t then Some t else None.

Definition slept (call : option Q) : Q :=
  match call with
  | Some d => d
  | None => 0
  end.

(** ** Trigger (lines 65-69) *)

(** One entry of [results[0].boxes]: class index and confidence. *)
Record Box := mkBox { cls : nat; conf : Q }.

(** [obj in TARGET_OBJECTS] *)
Definition is_target (obj : string) : bool :=
  existsb (String.eqb obj) TARGET_OBJECTS.

(** [[model.names[int(box.cls)] for box in results[0].boxes]] *)
Definition detected_objects (names : nat -> string) (boxes : list Box) : list string :=
  map (fun box => names (cls box)) boxes.

(** [any(obj in TARGET_OBJECTS for obj in detected_objects)] *)
Definition trigger (names : nat -> string) (boxes : list Box) : bool :=
  existsb is_target (detected_objects names boxes).

(** A names table for the examples: the entries of the COCO table that the
    target list mentions, every other index mapped to a non-target label. *)
Definition coco_names (k : nat) : string :=
  match k with
  | 0%nat => "person"
  | 14%nat => "bird"
  | 15%nat => "cat"
  | 16%nat => "dog"
  | 21%nat => "bear"
  | _ => "kite"
  end%string.

(** ** File naming (lines 79-80) *)

(** What [datetime.now()] returns: a naive local date and time. *)
Record DateTime := mkDateTime {
  year : Z; month : Z; day : Z;
  hour : Z; minute : Z; second : Z; microsecond : Z
}.

(** A reading of the system clock: the fields in the ranges of the
    [datetime] type, the year with four digits, so that [%Y] is four
    characters whatever the C library does for earlier years. *)
Definition valid_datetime (d : DateTime) : Prop :=
  (1000 <= year d <= 9999 /\ 1 <= month d <= 12 /\ 1 <= day d <= 31 /\
   0 <= hour d < 24 /\ 0 <= minute d < 60 /\ 0 <= second d < 60 /\
   0 <= microsecond d < 1000000)%Z.

(** Order of two [datetime] values: lexicographic on the fields. *)
Definition lex (c : comparison) (rest : comparison) : comparison :=
  match c with
  | Eq => rest
  | _ => c
  end.

Definition datetime_compare (a b : DateTime) : comparison :=
  lex (year a ?= year b)%Z
 (lex (month a ?= month b)%Z
 (lex (day a ?= day b)%Z
 (lex (hour a ?= hour b)%Z
 (lex (minute a ?= minute b)%Z
 (lex (second a ?= second b)%Z
      (microsecond a ?= microsecond b)%Z))))).

Definition datetime_le (a b : DateTime) : Prop := datetime_compare a b <> Gt.

(** The character of a decimal digit: ['0'] is code 48. *)
Definition digit (n : Z) : ascii := ascii_of_N (Z.to_N (48 + n)).

(** [%m], [%d], [%H], [%M], [%S]: two digits, zero padded. *)
Definition pad2 (n : Z) (k : string) : string :=
  String (digit (n / 10 mod 10)%Z) (String (digit (n mod 10)%Z) k).

(** [%Y]: four digits, zero padded. *)
Definition pad4 (n : Z) (k : string) : string :=
  String (digit (n / 1000 mod 10)%Z) (String (digit (n / 100 mod 10)%Z) (pad2 n k)).

(** The fields in the layout ["%Y-%m-%d_%H-%M-%S"], followed by [k]. *)
Definition format_then (d : DateTime) (k : string) : string :=
  pad4 (year d) (String "-" (pad2 (month d) (String "-" (pad2 (day d)
    (String "_" (pad2 (hour d) (String "-" (pad2 (minute d) (String "-"
      (pad2 (second d) k)))))))))).

(** [strftime("%Y-%m-%d_%H-%M-%S")] *)
Definition strftime (d : DateTime) : string := format_then d EmptyString.

Definition is_digit (c : ascii) : bool :=
  andb (N.leb 48 (N_of_ascii c)) (N.leb (N_of_ascii c) 57).

(** The layout [DDDD-DD-DD_DD-DD-DD], [D] a decimal digit. *)
Definition timestamp_shape (s : string) : bool :=
  match list_ascii_of_string s with
  | [y1; y2; y3; y4; s1; m1; m2; s2; d1; d2; s3; h1; h2; s4; n1; n2; s5; c1; c2] =>
      forallb is_digit [y1; y2; y3; y4; m1; m2; d1; d2; h1; h2; n1; n2; c1; c2]
      && forallb (Ascii.eqb "-") [s1; s2; s4; s5] && Ascii.eqb "_" s3
  | _ => false
  end.

Definition starts_with_slash (s : string) : bool :=
  match s with
  | String c _ => Ascii.eqb c "/"
  | EmptyString => false
  end.

Fixpoint ends_with_slash (s : string) : bool :=
  match s with
  | EmptyString => false
  | String c EmptyString => Ascii.eqb c "/"
  | String _ rest => ends_with_slash rest
  end.

(** [os.path.join] on two components (POSIX). *)
Definition os_path_join (a b : string) : string :=
  if starts_with_slash b then b
  else if orb (String.eqb a EmptyString) (ends_with_slash a) then (a ++ b)%string
  else (a ++ String "/" b)%string.

(** [os.path.join(VIDEO_FOLDER, f"video_{timestamp}.mp4")] *)
Definition video_filename_of (timestamp : string) : string :=
  os_path_join VIDEO_FOLDER ("video_" ++ timestamp ++ ".mp4")%string.

(** ** Output folder (lines 42-43) *)

Inductive Kind := Directory | RegularFile.

(** The part of the file system the program looks at: existing paths. *)
Definition FileSystem := list (string * Kind).

Definition os_path_exists (p : string) (fs : FileSystem) : bool :=
  existsb (fun e => String.eqb p (fst e)) fs.

Definition os_makedirs (p : string) (fs : FileSystem) : FileSystem :=
  (p, Directory) :: fs.

Definition is_directory (p : string) (fs : FileSystem) : bool :=
  existsb (fun e => andb (String.eqb p (fst e))
                         match snd e with Directory => true | RegularFile => false end) fs.

(** Lines 42-43. *)
Definition ensure_video_folder (fs : FileSystem) : FileSystem :=
  if negb (os_path_exists VIDEO_FOLDER fs) then os_makedirs VIDEO_FOLDER fs else fs.

(** ** The camera and the recorder

    The state of the [Picamera2] object that the calls of [main] act on:
    the configuration it holds, whether the camera runs, and the output the
    encoder writes to while a recording is in progress. *)

Inductive CamConfig := detection_config | video_config.

Record Picamera2 := mkCam {
  configuration : option CamConfig;
  running : bool;
  recording_to : option string
}.

(** [Picamera2()] *)
Definition new_camera : Picamera2 := mkCam None false None.

Definition configure (c : CamConfig) (cam : Picamera2) : Picamera2 :=
  mkCam (Some c) (running cam) (recording_to cam).

Definition start (cam : Picamera2) : Picamera2 :=
  mkCam (configuration cam) true (recording_to cam).

(** [stop] halts the camera; it leaves the encoder and its output alone. *)
Definition stop (cam : Picamera2) : Picamera2 :=
  mkCam (configuration cam) false (recording_to cam).

(** [switch_mode]: stop, configure, start. *)
Definition switch_mode (c : CamConfig) (cam : Picamera2) : Picamera2 :=
  start (configure c (stop cam)).

(** [start_recording]: open the output, start the encoder and the camera. *)
Definition start_recording (output : string) (cam : Picamera2) : Picamera2 :=
  start (mkCam (configuration cam) (running cam) (Some output)).

(** [stop_recording]: stop the camera, stop the encoder and close the
    output.  It is the only call that closes the output. *)
Definition stop_recording (cam : Picamera2) : Picamera2 :=
  mkCam (configuration (stop cam)) (running (stop cam)) None.

(** The recorder calls that returned, with the clock reading at the call
    ([Started]) and at the return ([Stopped]). *)
Inductive RecorderEvent :=
| Started (file : string) (at_call : Q)
| Stopped (at_return : Q).

(** ** Program locations

    One location per statement of [main], named after its line.  Lines
    30-39 (camera object, the two configurations, the encoder) are one
    location, as are lines 61-62, 65-67 and 79-83. *)

Inductive Loc :=
| L23 | L30 | L42 | L45 | L48 | L49 | L52
| L54 | L56 | L57 | L61 | L65 | L69 | L70 | L73 | L76 | L79 | L86 | L89
| L91 | L92 | L99 | L102 | L105 | L106
| L110            (* except KeyboardInterrupt: print *)
| L112            (* finally, after the handler *)
| L112_raising    (* finally, with an exception in flight *)
| Returned        (* main returned *)
| Raised.         (* an exception left main *)

Definition terminal (l : Loc) : bool :=
  match l with
  | Returned | Raised => true
  | _ => false
  end.

(** Where control goes when [KeyboardInterrupt] is raised at a location:
    nothing catches it before the [try] of line 51; inside it the handler
    of line 109 does. *)
Definition on_KeyboardInterrupt (l : Loc) : Loc :=
  match l with
  | L23 | L30 | L42 | L45 | L48 | L49 => Raised
  | L110 => L112_raising
  | L112 | L112_raising | Returned | Raised => Raised
  | _ => L110
  end.

(** Where control goes when any other exception is raised: line 25 catches
    it for the model load and returns; inside the [try] of line 51 only the
    [finally] clause runs. *)
Definition on_Exception (l : Loc) : Loc :=
  match l with
  | L23 => Returned
  | L30 | L42 | L45 | L48 | L49 => Raised
  | L112 | L112_raising | Returned | Raised => Raised
  | _ => L112_raising
  end.

(** ** Machine state *)

Record State := mkState {
  pc : Loc;
  clock : Q;                       (* what [time.time()] would return now *)
  current_time : Q;
  last_detection_time : Q;
  objects : list string;           (* [detected_objects] *)
  video_filename : string;
  time_to_next : Q;                (* [time_to_next_detection] *)
  picam2 : Picamera2;
  fs : FileSystem;
  recorder_log : list RecorderEvent   (* newest first *)
}.

Definition goto (l : Loc) (s : State) : State :=
  mkState l (clock s) (current_time s) (last_detection_time s) (objects s)
          (video_filename s) (time_to_next s) (picam2 s) (fs s) (recorder_log s).

(** Let [d] seconds pass. *)
Definition elapse (d : Q) (s : State) : State :=
  mkState (pc s) (clock s + d) (current_time s) (last_detection_time s) (objects s)
          (video_filename s) (time_to_next s) (picam2 s) (fs s) (recorder_log s).

Definition set_current_time (t : Q) (s : State) : State :=
  mkState (pc s) (clock s) t (last_detection_time s) (objects s)
          (video_filename s) (time_to_next s) (picam2 s) (fs s) (recorder_log s).

Definition set_last_detection_time (t : Q) (s : State) : State :=
  mkState (pc s) (clock s) (current_time s) t (objects s)
          (video_filename s) (time_to_next s) (picam2 s) (fs s) (recorder_log s).

Definition set_objects (l : list string) (s : State) : State :=
  mkState (pc s) (clock s) (current_time s) (last_detection_time s) l
          (video_filename s) (time_to_next s) (picam2 s) (fs s) (recorder_log s).

Definition set_video_filename (f : string) (s : State) : State :=
  mkState (pc s) (clock s) (current_time s) (last_detection_time s) (objects s)
          f (time_to_next s) (picam2 s) (fs s) (recorder_log s).

Definition set_time_to_next (t : Q) (s : State) : State :=
  mkState (pc s) (clock s) (current_time s) (last_detection_time s) (objects s)
          (video_filename s) t (picam2 s) (fs s) (recorder_log s).

Definition set_picam2 (c : Picamera2) (s : State) : State :=
  mkState (pc s) (clock s) (current_time s) (last_detection_time s) (objects s)
          (video_filename s) (time_to_next s) c (fs s) (recorder_log s).

Definition set_fs (f : FileSystem) (s : State) : State :=
  mkState (pc s) (clock s) (current_time s) (last_detection_time s) (objects s)
          (video_filename s) (time_to_next s) (picam2 s) f (recorder_log s).

Definition record_event (e : RecorderEvent) (s : State) : State :=
  mkState (pc s) (clock s) (current_time s) (last_detection_time s) (objects s)
          (video_filename s) (time_to_next s) (picam2 s) (fs s) (e :: recorder_log s).

(** ** Inputs

    What the environment decides for one executed statement: whether it
    returns, is interrupted by the operator, or raises; how long it takes
    (for a [time.sleep] call: how long beyond the requested delay); and
    what the detector and [datetime.now()] return if it asks them. *)

Inductive Outcome := Returns | KeyboardInterrupt | Raises.

Record Input := mkInput {
  outcome : Outcome;
  dt : Q;
  boxes : list Box;
  wall : DateTime
}.

(** ** One statement *)

Section Machine.

Variable names : nat -> string.   (* [model.names] *)

(** The statement at [pc s], when it returns. *)
Definition exec (i : Input) (s : State) : State :=
  match pc s with
  | L23 => goto L30 s
  | L30 => goto L42 (set_picam2 new_camera s)
  | L42 => goto L45 (set_fs (ensure_video_folder (fs s)) s)
  | L45 => goto L48 (set_last_detection_time 0 s)
  | L48 => goto L49 (set_picam2 (configure detection_config (picam2 s)) s)
  | L49 => goto L52 (set_picam2 (start (picam2 s)) s)
  | L52 => goto L54 s
  | L54 => goto L56 (set_current_time (clock s) s)
  | L56 =>
      if cooling_down (current_time s) (last_detection_time s) COOLDOWN_SECONDS
      then goto L57 s else goto L61 s
  | L57 => goto L54 (elapse IDLE_SECONDS s)
  | L61 => goto L65 s
  | L65 => goto L69 (set_objects (detected_objects names (boxes i)) s)
  | L69 => if existsb is_target (objects s) then goto L70 s else goto L105 s
  | L70 => goto L73 s
  | L73 => goto L76 (set_picam2 (switch_mode video_config (picam2 s)) s)
  | L76 => goto L79 (elapse SETTLE_SECONDS s)
  | L79 => goto L86 (set_video_filename (video_filename_of (strftime (wall i))) s)
  | L86 =>
      goto L89 (record_event (Started (video_filename s) (clock s))
                 (set_picam2 (start_recording (video_filename s) (picam2 s)) s))
  | L89 => goto L91 (elapse VIDEO_DURATION_SECONDS s)
  | L91 =>
      goto L92 (record_event (Stopped (clock s + dt i))
                 (set_picam2 (stop_recording (picam2 s)) s))
  | L92 => goto L99 s
  | L99 => goto L102 (set_picam2 (switch_mode detection_config (picam2 s)) s)
  | L102 => goto L105 (set_last_detection_time (current_time s) s)
  | L105 => goto L106 (set_time_to_next (time_to_next_detection (current_time s) (clock s)) s)
  | L106 =>
      match pacing_sleep (time_to_next s) with
      | Some d => goto L54 (elapse d s)
      | None => goto L54 s
      end
  | L110 => goto L112 s
  | L112 => goto Returned (set_picam2 (stop (picam2 s)) s)
  | L112_raising => goto Raised (set_picam2 (stop (picam2 s)) s)
  | Returned => s
  | Raised => s
  end.

(** One statement under input [i].  After [main] has returned or raised
    nothing happens.  An interrupted or failing statement is taken at the
    point where it has had no effect yet, so that only control is
    transferred; what a library call may have done before it raised is not
    modelled.  In every case [dt i] seconds pass. *)
Definition step (i : Input) (s : State) : State :=
  if terminal (pc s) then s
  else
    elapse (dt i)
      match outcome i with
      | Returns => exec i s
      | KeyboardInterrupt => goto (on_KeyboardInterrupt (pc s)) s
      | Raises => goto (on_Exception (pc s)) s
      end.

Definition run (inputs : list Input) (s : State) : State :=
  fold_left (fun st i => step i st) inputs s.

End Machine.

(** The state in which [main] is entered: the clock reads [clock0], the
    file system is [fs0]; the local variables are not bound yet. *)
Definition boot (clock0 : Q) (fs0 : FileSystem) : State :=
  mkState L23 clock0 0 0 [] EmptyString 0 new_camera fs0 [].

(** No statement takes negative time: the clock never steps back. *)
Definition steady (i : Input) : Prop := 0 <= dt i.

(** ** Reading the machine *)

(** Chronological recorder history. *)
Definition history (s : State) : list RecorderEvent := rev (recorder_log s).

(** A history in which every [Started] comes when no session is open and
    every [Stopped] closes the open one; [open] tells whether a session is
    open before the first event. *)
Fixpoint sessions_disjoint (open : bool) (h : list RecorderEvent) : bool :=
  match h with
  | [] => true
  | Started _ _ :: h' => negb open && sessions_disjoint true h'
  | Stopped _ :: h' => open && sessions_disjoint false h'
  end.

(** Whether a session is open after a history. *)
Fixpoint open_after (open : bool) (h : list RecorderEvent) : bool :=
  match h with
  | [] => open
  | Started _ _ :: h' => open_after true h'
  | Stopped _ :: h' => open_after false h'
  end.

Definition started_count (s : State) : nat :=
  List.length (filter (fun e => match e with Started _ _ => true | Stopped _ => false end)
                 (recorder_log s)).

Definition stopped_count (s : State) : nat :=
  List.length (filter (fun e => match e with Stopped _ => true | Started _ _ => false end)
                 (recorder_log s)).

(** The return time of the last completed recording. *)
Fixpoint last_stopped (log : list RecorderEvent) : option Q :=
  match log with
  | [] => None
  | Stopped t :: _ => Some t
  | Started _ _ :: rest => last_stopped rest
  end.



Section Tracking.

Variable names : nat -> string.


End Tracking.



(** ** Invariants of a run *)

(** The six formatted fields of a [datetime], compared in order. *)
Definition fields_compare (a b : DateTime) (rest : comparison) : comparison :=
  lex (year a ?= year b)%Z
 (lex (month a ?= month b)%Z
 (lex (day a ?= day b)%Z
 (lex (hour a ?= hour b)%Z
 (lex (minute a ?= minute b)%Z
 (lex (second a ?= second b)%Z rest))))).

(** How far the clock has moved past [current_time] at each location of the
    loop body, and when the last recording returned. *)
Definition progress (s : State) : Prop :=
  match pc s with
  | L56 | L57 | L61 | L65 | L69 | L70 | L73 | L76 | L105 | L106 =>
      current_time s <= clock s
  | L79 | L86 | L89 =>
      current_time s + SETTLE_SECONDS <= clock s
  | L91 =>
      current_time s + SETTLE_SECONDS + VIDEO_DURATION_SECONDS <= clock s
  | L92 | L99 | L102 =>
      current_time s + SETTLE_SECONDS + VIDEO_DURATION_SECONDS <= clock s /\
      exists t, last_stopped (recorder_log s) = Some t /\
                current_time s + SETTLE_SECONDS + VIDEO_DURATION_SECONDS <= t
  | _ => True
  end.

(** Where the anchor lies once a recording has returned. *)
Definition anchor_stale (s : State) : Prop :=
  match pc s with
  | L92 | L99 | L102 | L110 | L112 | L112_raising | Returned | Raised => True
  | L23 | L30 | L42 | L45 | L48 | L49 | L52 | L57 => stopped_count s = 0%nat
  | L56 =>
      stopped_count s = 0%nat \/
      last_detection_time s + SETTLE_SECONDS + VIDEO_DURATION_SECONDS <= current_time s
  | _ =>
      stopped_count s = 0%nat \/
      last_detection_time s + SETTLE_SECONDS + VIDEO_DURATION_SECONDS <= clock s
  end.

Definition timing (s : State) : Prop := progress s /\ anchor_stale s.

(** What is known of the readings since [main] was entered with the clock
    at [clock0], and of the anchor while no recording has returned. *)
Definition since_boot (clock0 : Q) (s : State) : Prop :=
  clock0 <= clock s /\
  match pc s with
  | L56 | L57 => clock0 <= current_time s
  | L92 | L99 | L102 => stopped_count s <> 0%nat
  | _ => True
  end /\
  (stopped_count s = 0%nat -> last_detection_time s = 0).

(** The recorder log, newest first: is a session open, and did every
    event come in turn. *)
Definition log_open (log : list RecorderEvent) : bool :=
  match log with
  | Started _ _ :: _ => true
  | _ => false
  end.

Fixpoint log_ok (log : list RecorderEvent) : bool :=
  match log with
  | [] => true
  | Started _ _ :: rest => negb (log_open rest) && log_ok rest
  | Stopped _ :: rest => log_open rest && log_ok rest
  end.

(** The configuration the camera holds when control is at a location
    between line 48 and the end of the loop body. *)
Definition config_at (l : Loc) : option CamConfig :=
  match l with
  | L49 | L52 | L54 | L56 | L57 | L61 | L65 | L69 | L70 | L73
  | L102 | L105 | L106 => Some detection_config
  | L76 | L79 | L86 | L89 | L91 | L92 | L99 => Some video_config
  | _ => None
  end.

(** What each location finds: the configuration the camera holds, the
    output folder, and whether a recording is open. *)
Definition shape (s : State) : Prop :=
  match config_at (pc s) with
  | Some c => configuration (picam2 s) = Some c
  | None => True
  end /\
  match pc s with
  | L23 | L30 | L42 | Returned | Raised => True
  | _ => os_path_exists VIDEO_FOLDER (fs s) = true
  end /\
  log_ok (recorder_log s) = true /\
  match pc s with
  | L89 | L91 =>
      log_open (recorder_log s) = true /\
      recording_to (picam2 s) = Some (video_filename s)
  | L110 | L112 | L112_raising | Returned | Raised => True
  | _ => log_open (recorder_log s) = false /\ recording_to (picam2 s) = None
  end.

(** ** Sample inputs *)

Definition noon : DateTime := mkDateTime 2025 6 1 12 0 0 0.
Definition later : DateTime := mkDateTime 2025 6 1 12 1 30 250000.

(** A statement that returns after [d] seconds. *)
Definition ok (d : Q) : Input := mkInput Returns d [] noon.
(** The detector call, returning [bs] after [d] seconds. *)
Definition sees (bs : list Box) (d : Q) : Input := mkInput Returns d bs noon.
(** The operator interrupts the statement [d] seconds into it. *)
Definition interrupted (d : Q) : Input := mkInput KeyboardInterrupt d [] noon.
(** The statement raises after [d] seconds. *)
Definition failing (d : Q) : Input := mkInput Raises d [] noon.

Definition a_cat : list Box := [mkBox 15 (9 # 10)].

(** Lines 23-52. *)
Definition startup : list Input := [ok 0; ok 0; ok 0; ok 0; ok 0; ok 0; ok 0].

(** Lines 54-73 of a poll that sees a cat: up to the switch to the video
    configuration. *)
Definition poll_cat : list Input :=
  [ok 0; ok 0; ok (1 # 10); sees a_cat (3 # 10); ok 0; ok 0; ok (1 # 10)].

(** Lines 76-89: settle, name the file, start recording, record. *)
Definition record : list Input := [ok 0; ok 0; ok 0; ok 0].

(** Lines 91-102: stop recording, print, switch back, arm the cool-down. *)
Definition wrap_up : list Input := [ok (1 # 10); ok 0; ok (1 # 10); ok 0].

(** Lines 105-107. *)
Definition pace : list Input := [ok 0; ok 0].

(** A recording started at [t] on file [f] in the run [inputs] from [s0]:
    line 79 ran under input [i] and formatted its [datetime.now()] reading
    into [f], and the very next statement, under [j], was the
    [start_recording] of line 86, called at [t]. *)
Definition started_by (names : nat -> string) (s0 : State) (inputs : list Input)
    (f : string) (t : Q) : Prop :=
  exists pre i j post,
    inputs = pre ++ i :: j :: post /\
    pc (run names pre s0) = L79 /\
    outcome i = Returns /\ outcome j = Returns /\
    f = video_filename_of (strftime (wall i)) /\
    t = clock (run names (pre ++ [i]) s0).

Definition naming (names : nat -> string) (s0 : State) (inputs : list Input)
    (s : State) : Prop :=
  (pc s = L86 ->
   exists pre i, inputs = pre ++ [i] /\ pc (run names pre s0) = L79 /\
                 outcome i = Returns /\
                 video_filename s = video_filename_of (strftime (wall i))) /\
  (forall f t, In (Started f t) (recorder_log s) -> started_by names s0 inputs f t).

Definition steadyb (i : Input) : bool := Qle_bool 0 (dt i).

(** Start-up and one triggered poll, up to but not including line 102. *)
Definition up_to_arming : list Input :=
  startup ++ poll_cat ++ record ++ [ok (1 # 10); ok 0; ok (1 # 10)].

(** Start-up, one triggered cycle, and line 54 of the next iteration. *)
Definition cycle_and_next : list Input :=
  startup ++ poll_cat ++ record ++ wrap_up ++ pace ++ [ok 0].

(** Start-up and a triggered poll, with the operator interrupting the
    sleep of line 89 twenty seconds into the recording. *)
Definition interrupted_recording : list Input :=
  startup ++ poll_cat ++ [ok 0; ok 0; ok 0; interrupted 20].

(** ** Further readings of the machine *)

(** The locations inside the [try] statement of line 51. *)
Definition in_try (l : Loc) : bool :=
  match l with
  | L52 | L54 | L56 | L57 | L61 | L65 | L69 | L70 | L73 | L76 | L79 | L86 | L89
  | L91 | L92 | L99 | L102 | L105 | L106 => true
  | _ => false
  end.

(** The locations of the recording branch, lines 70-102. *)
Definition in_recording_branch (l : Loc) : bool :=
  match l with
  | L70 | L73 | L76 | L79 | L86 | L89 | L91 | L92 | L99 | L102 => true
  | _ => false
  end.

(** Whether the camera runs when control is at a location of the [try]
    statement: [stop_recording] halts it, the [switch_mode] of line 99
    starts it again. *)
Definition running_at (l : Loc) : option bool :=
  match l with
  | L52 | L54 | L56 | L57 | L61 | L65 | L69 | L70 | L73 | L76 | L79 | L86 | L89
  | L91 | L102 | L105 | L106 => Some true
  | L92 | L99 => Some false
  | _ => None
  end.

(** The lengths of the completed recordings of a log (newest first): from
    the call of [start_recording] to the return of [stop_recording]. *)
Fixpoint session_lengths (log : list RecorderEvent) : list Q :=
  match log with
  | [] => []
  | Stopped t2 :: rest =>
      match rest with
      | Started _ t1 :: _ => (t2 - t1) :: session_lengths rest
      | _ => session_lengths rest
      end
  | Started _ _ :: rest => session_lengths rest
  end.

(** What the recording block knows of the open recording. *)
Definition recording_clock (s : State) : Prop :=
  Forall (fun d => VIDEO_DURATION_SECONDS <= d) (session_lengths (recorder_log s)) /\
  match pc s with
  | L89 =>
      exists f t rest, recorder_log s = Started f t :: rest /\ t <= clock s
  | L91 =>
      exists f t rest, recorder_log s = Started f t :: rest /\
                       t + VIDEO_DURATION_SECONDS <= clock s
  | _ => True
  end.

(** A run in which no poll has shown a target yet. *)
Definition never_triggered (s : State) : Prop :=
  recorder_log s = [] /\
  configuration (picam2 s) <> Some video_config /\
  in_recording_branch (pc s) = false /\
  (pc s = L69 -> existsb is_target (objects s) = false).

(** The anchor lies in the past. *)
Definition anchor_past (s : State) : Prop :=
  last_detection_time s <= clock s /\
  match pc s with
  | L56 | L57 => last_detection_time s <= current_time s
  | _ => True
  end.

Definition returns (i : Input) : Prop := outcome i = Returns.

Definition a_kite : list Box := [mkBox 33 (8 # 10)].

(** Lines 54-69 and 105-107 of a poll that sees a kite only. *)
Definition poll_kite : list Input :=
  [ok 0; ok 0; ok (1 # 10); sees a_kite (3 # 10); ok 0; ok 0; ok 0].

(** The time the statements of a list of inputs take by themselves. *)
Definition total_dt (inputs : list Input) : Q :=
  fold_right (fun i acc => dt i + acc) 0 inputs.

(** Lines 54-107 of a poll that sees a cat and records, statement by
    statement. *)
Definition triggered_cycle : list Input :=
  [ok 0; ok 0; ok (1 # 10); sees a_cat (3 # 10); ok 0; ok 0; ok (1 # 10);
   ok 0; ok 0; ok 0; ok 0; ok (1 # 10); ok 0; ok (1 # 10); ok 0; ok 0; ok 0].



(** Start-up and a poll that sees a kite, up to but not including line
    105. *)
Definition up_to_pacing : list Input :=
  startup ++ [ok 0; ok 0; ok (1 # 10); sees a_kite (3 # 10); ok 0].



(** * Properties *)

(** ** Comparisons *)

Lemma Qltb_lt (x y : Q) : Qltb x y = true <-> x < y.
Proof.
  unfold Qltb. rewrite negb_true_iff, <- not_true_iff_false, Qle_bool_iff.
  split; [apply Qnot_le_lt | apply Qlt_not_le].
Qed.

Lemma Qltb_ge (x y : Q) : Qltb x y = false <-> y <= x.
Proof.
  unfold Qltb. rewrite negb_false_iff. apply Qle_bool_iff.
Qed.

(** ** The cool-down gate *)

Lemma cooling_down_iff (now last cd : Q) :
  cooling_down now last cd = true <-> now - last < cd.
Proof. apply Qltb_lt. Qed.

(** C2, amended: for every [now >= lastRecordingEndedAt] the gate is closed
    exactly when [now - lastRecordingEndedAt < cooldownDuration]; with the
    initial anchor [0] it is open exactly when the clock reading itself is
    at least [cooldownDuration]. *)
Theorem isQuiet_spec (now last cd : Q) :
  last <= now ->
  (isQuiet now last cd = false <-> now - last < cd) /\
  (isQuiet now 0 cd = true <-> cd <= now).
Proof.
  intros _. unfold isQuiet. split.
  - rewrite negb_false_iff. apply cooling_down_iff.
  - rewrite negb_true_iff. unfold cooling_down. rewrite Qltb_ge.
    split; intros H; lra.
Qed.

(** ** Pacing *)

(** The arithmetic of lines 105-107 by itself: with
    [p = now - current_time >= 0], the delay asked of [time.sleep] is
    [max 0 (interval - p)]. *)
Lemma pacing_sleep_spec (current_time now : Q) :
  let p := now - current_time in
  0 <= p ->
  slept (pacing_sleep (time_to_next_detection current_time now))
    = Qmax 0 (DETECTION_INTERVAL_SECONDS - p) /\
  (p < DETECTION_INTERVAL_SECONDS ->
   pacing_sleep (time_to_next_detection current_time now)
     = Some (DETECTION_INTERVAL_SECONDS - p)) /\
  (DETECTION_INTERVAL_SECONDS <= p ->
   pacing_sleep (time_to_next_detection current_time now) = None).
Proof.
  intros p _. unfold time_to_next_detection, pacing_sleep. fold p.
  set (t := DETECTION_INTERVAL_SECONDS - p).
  assert (Hmax : Qmax 0 t = if Qltb 0 t then t else 0).
  { unfold Qmax, GenericMinMax.gmax.
    destruct (Qltb 0 t) eqn:E.
    - apply Qltb_lt in E. rewrite (proj1 (Qlt_alt 0 t) E). reflexivity.
    - apply Qltb_ge in E. destruct (0 ?= t) eqn:C; try reflexivity.
      apply Qlt_alt in C. lra. }
  repeat split.
  - rewrite Hmax. destruct (Qltb 0 t); reflexivity.
  - intros Hp. assert (E : Qltb 0 t = true) by (apply Qltb_lt; unfold t; lra).
    rewrite E. reflexivity.
  - intros Hp. assert (E : Qltb 0 t = false) by (apply Qltb_ge; unfold t; lra).
    rewrite E. reflexivity.
Qed.

(** ** The trigger *)



(** ** File names *)

Lemma digit_compare (a b : Z) :
  (0 <= a < 10)%Z -> (0 <= b < 10)%Z ->
  Ascii.compare (digit a) (digit b) = (a ?= b)%Z.
Proof.
  intros Ha Hb. unfold Ascii.compare, digit.
  rewrite !N_ascii_embedding by lia.
  rewrite Z2N.inj_compare by lia.
  apply Z.add_compare_mono_l.
Qed.

Lemma digit_is_digit (a : Z) : (0 <= a < 10)%Z -> is_digit (digit a) = true.
Proof.
  intros Ha. unfold is_digit, digit. rewrite N_ascii_embedding by lia.
  apply andb_true_intro. split; apply N.leb_le; lia.
Qed.

Lemma ascii_compare_refl (c : ascii) : Ascii.compare c c = Eq.
Proof. apply N.compare_refl. Qed.

Lemma string_compare_cons (c1 c2 : ascii) (s1 s2 : string) :
  String.compare (String c1 s1) (String c2 s2)
  = lex (Ascii.compare c1 c2) (String.compare s1 s2).
Proof. simpl. destruct (Ascii.compare c1 c2); reflexivity. Qed.

Lemma string_compare_same_head (c : ascii) (s1 s2 : string) :
  String.compare (String c s1) (String c s2) = String.compare s1 s2.
Proof. rewrite string_compare_cons, ascii_compare_refl. reflexivity. Qed.

Lemma string_compare_same_prefix (p s1 s2 : string) :
  String.compare (p ++ s1) (p ++ s2) = String.compare s1 s2.
Proof.
  induction p as [|c p IH]; [reflexivity|].
  simpl append. rewrite string_compare_same_head. exact IH.
Qed.

Lemma string_compare_refl (s : string) : String.compare s s = Eq.
Proof.
  induction s as [|c s IH]; [reflexivity|].
  now rewrite string_compare_same_head.
Qed.

(** Comparing digit by digit is comparing the numbers. *)
Lemma lex_two_digits (a1 a0 b1 b0 : Z) (r : comparison) :
  (0 <= a1 < 10)%Z -> (0 <= a0 < 10)%Z -> (0 <= b1 < 10)%Z -> (0 <= b0 < 10)%Z ->
  lex (a1 ?= b1)%Z (lex (a0 ?= b0)%Z r) = lex (10 * a1 + a0 ?= 10 * b1 + b0)%Z r.
Proof.
  intros.
  destruct (Z.compare_spec a1 b1), (Z.compare_spec a0 b0),
    (Z.compare_spec (10 * a1 + a0) (10 * b1 + b0)); simpl; try reflexivity; lia.
Qed.

Lemma pad2_compare (m n : Z) (k1 k2 : string) :
  (0 <= m < 100)%Z -> (0 <= n < 100)%Z ->
  String.compare (pad2 m k1) (pad2 n k2) = lex (m ?= n)%Z (String.compare k1 k2).
Proof.
  intros Hm Hn. unfold pad2.
  rewrite !string_compare_cons, !digit_compare by (apply Z.mod_pos_bound; lia).
  rewrite lex_two_digits by (apply Z.mod_pos_bound; lia).
  replace (10 * (m / 10 mod 10) + m mod 10)%Z with m by (Z.div_mod_to_equations; lia).
  replace (10 * (n / 10 mod 10) + n mod 10)%Z with n by (Z.div_mod_to_equations; lia).
  reflexivity.
Qed.

Lemma pad4_compare (m n : Z) (k1 k2 : string) :
  (0 <= m < 10000)%Z -> (0 <= n < 10000)%Z ->
  String.compare (pad4 m k1) (pad4 n k2) = lex (m ?= n)%Z (String.compare k1 k2).
Proof.
  intros Hm Hn. unfold pad4, pad2.
  rewrite !string_compare_cons, !digit_compare by (apply Z.mod_pos_bound; lia).
  rewrite (lex_two_digits (m / 10 mod 10)) by (apply Z.mod_pos_bound; lia).
  set (lo1 := (10 * (m / 10 mod 10) + m mod 10)%Z).
  set (lo2 := (10 * (n / 10 mod 10) + n mod 10)%Z).
  rewrite (lex_two_digits (m / 1000 mod 10) (m / 100 mod 10)) by (apply Z.mod_pos_bound; lia).
  set (hi1 := (10 * (m / 1000 mod 10) + m / 100 mod 10)%Z).
  set (hi2 := (10 * (n / 1000 mod 10) + n / 100 mod 10)%Z).
  assert (E1 : m = (100 * hi1 + lo1)%Z) by (unfold hi1, lo1; Z.div_mod_to_equations; lia).
  assert (E2 : n = (100 * hi2 + lo2)%Z) by (unfold hi2, lo2; Z.div_mod_to_equations; lia).
  assert (B1 : (0 <= lo1 < 100)%Z) by (unfold lo1; Z.div_mod_to_equations; lia).
  assert (B2 : (0 <= lo2 < 100)%Z) by (unfold lo2; Z.div_mod_to_equations; lia).
  clearbody hi1 hi2 lo1 lo2. subst m n.
  destruct (Z.compare_spec hi1 hi2), (Z.compare_spec lo1 lo2),
    (Z.compare_spec (100 * hi1 + lo1) (100 * hi2 + lo2)); simpl; try reflexivity; lia.
Qed.

Lemma format_then_compare (d1 d2 : DateTime) (k1 k2 : string) :
  valid_datetime d1 -> valid_datetime d2 ->
  String.compare (format_then d1 k1) (format_then d2 k2)
  = fields_compare d1 d2 (String.compare k1 k2).
Proof.
  intros V1 V2. unfold valid_datetime in V1, V2. unfold format_then, fields_compare.
  rewrite pad4_compare by lia. f_equal.
  rewrite string_compare_same_head, pad2_compare by lia. f_equal.
  rewrite string_compare_same_head, pad2_compare by lia. f_equal.
  rewrite string_compare_same_head, pad2_compare by lia. f_equal.
  rewrite string_compare_same_head, pad2_compare by lia. f_equal.
  rewrite string_compare_same_head, pad2_compare by lia. reflexivity.
Qed.

Lemma lex_not_Gt (c r r' : comparison) :
  (r <> Gt -> r' <> Gt) -> lex c r <> Gt -> lex c r' <> Gt.
Proof. destruct c; simpl; auto. Qed.

Lemma fields_compare_le (d1 d2 : DateTime) :
  datetime_le d1 d2 -> fields_compare d1 d2 Eq <> Gt.
Proof.
  unfold datetime_le, datetime_compare, fields_compare.
  repeat (apply lex_not_Gt). intros _. discriminate.
Qed.

Lemma strftime_append (d : DateTime) (k : string) :
  (strftime d ++ k)%string = format_then d k.
Proof. reflexivity. Qed.

Lemma video_filename_of_eq (ts : string) :
  video_filename_of ts = ("squirrel_videos/video_" ++ ts ++ ".mp4")%string.
Proof. reflexivity. Qed.

Lemma strftime_shape (d : DateTime) :
  valid_datetime d -> timestamp_shape (strftime d) = true.
Proof.
  intros V. unfold valid_datetime in V.
  unfold timestamp_shape, strftime, format_then, pad4, pad2. cbn [list_ascii_of_string].
  cbn [forallb]. rewrite !digit_is_digit by (apply Z.mod_pos_bound; lia). reflexivity.
Qed.

Lemma video_filename_monotone (d1 d2 : DateTime) :
  valid_datetime d1 -> valid_datetime d2 -> datetime_le d1 d2 ->
  String.leb (video_filename_of (strftime d1)) (video_filename_of (strftime d2)) = true.
Proof.
  intros V1 V2 Hle. unfold String.leb.
  rewrite !video_filename_of_eq, string_compare_same_prefix, !strftime_append.
  rewrite format_then_compare by assumption.
  rewrite string_compare_refl.
  destruct (fields_compare d1 d2 Eq) eqn:E; try reflexivity.
  exfalso. now apply (fields_compare_le d1 d2).
Qed.

Lemma video_filename_compare (d1 d2 : DateTime) :
  valid_datetime d1 -> valid_datetime d2 ->
  String.compare (video_filename_of (strftime d1)) (video_filename_of (strftime d2))
  = fields_compare d1 d2 Eq.
Proof.
  intros V1 V2.
  rewrite !video_filename_of_eq, string_compare_same_prefix, !strftime_append.
  rewrite format_then_compare by assumption.
  now rewrite string_compare_refl.
Qed.

(** Lines 42-43 leave the folder in place, as a directory if they made it. *)
Lemma ensure_video_folder_exists (fs0 : FileSystem) :
  os_path_exists VIDEO_FOLDER (ensure_video_folder fs0) = true /\
  (os_path_exists VIDEO_FOLDER fs0 = false ->
   is_directory VIDEO_FOLDER (ensure_video_folder fs0) = true).
Proof.
  unfold ensure_video_folder.
  destruct (os_path_exists VIDEO_FOLDER fs0) eqn:E; simpl.
  - split; [assumption | discriminate].
  - split; [|intros _]; reflexivity.
Qed.

(** ** Runs *)

Lemma run_app (names : nat -> string) (xs ys : list Input) (s : State) :
  run names (xs ++ ys) s = run names ys (run names xs s).
Proof. apply fold_left_app. Qed.

Lemma run_cons (names : nat -> string) (i : Input) (xs : list Input) (s : State) :
  run names (i :: xs) s = run names xs (step names i s).
Proof. reflexivity. Qed.

(** A property kept by every step under inputs satisfying [G] holds along
    every run under such inputs. *)
Lemma run_invariant (names : nat -> string) (G : Input -> Prop) (P : State -> Prop) :
  (forall i s, G i -> P s -> P (step names i s)) ->
  forall inputs s, Forall G inputs -> P s -> P (run names inputs s).
Proof.
  intros Hstep inputs. induction inputs as [|i inputs IH]; intros s HG HP.
  - exact HP.
  - rewrite run_cons. inversion HG; subst. apply IH; auto.
Qed.

Lemma terminal_step (names : nat -> string) (i : Input) (s : State) :
  terminal (pc s) = true -> step names i s = s.
Proof. intros H. unfold step. now rewrite H. Qed.

Lemma terminal_run (names : nat -> string) (inputs : list Input) (s : State) :
  terminal (pc s) = true -> run names inputs s = s.
Proof.
  induction inputs as [|i inputs IH]; intros H; [reflexivity|].
  rewrite run_cons, terminal_step by assumption. now apply IH.
Qed.

(** Case analysis on the statement being executed and on its outcome. *)
Ltac by_statement s i :=
  destruct s as [l clk ct ldt objs vf ttn cam fsys log];
  unfold step; destruct l; cbn [terminal pc];
  destruct (outcome i);
  cbn [exec goto elapse set_current_time set_last_detection_time set_objects
       set_video_filename set_time_to_next set_picam2 set_fs record_event
       on_KeyboardInterrupt on_Exception
       pc clock current_time last_detection_time objects video_filename
       time_to_next picam2 fs recorder_log].

Ltac split_tests :=
  repeat match goal with
  | |- context [if ?b then _ else _] => destruct b eqn:?
  | |- context [match pacing_sleep ?t with _ => _ end] => destruct (pacing_sleep t) eqn:?
  end;
  cbn [goto elapse pc clock current_time last_detection_time objects video_filename
       time_to_next picam2 fs recorder_log].

(** A pacing sleep that is taken is for a positive delay. *)
Ltac sleep_is_positive :=
  try match goal with
      | H : pacing_sleep _ = Some _ |- _ =>
          let Hb := fresh "Hb" in
          unfold pacing_sleep in H;
          match type of H with
          | (if ?b then _ else _) = _ => destruct b eqn:Hb; [|discriminate]
          end;
          apply Qltb_lt in Hb; injection H as <-
      end.

Ltac unfold_constants :=
  unfold SETTLE_SECONDS, VIDEO_DURATION_SECONDS, COOLDOWN_SECONDS, IDLE_SECONDS,
    DETECTION_INTERVAL_SECONDS in *.

(** ** Timing along a run *)

Lemma timing_boot (clock0 : Q) (fs0 : FileSystem) : timing (boot clock0 fs0).
Proof. split; [exact I | reflexivity]. Qed.

Ltac open_hyps :=
  repeat match goal with
  | H : _ /\ _ |- _ => destruct H
  | H : exists _, _ |- _ => destruct H
  | H : cooling_down _ _ _ = true |- _ => apply cooling_down_iff in H
  | H : cooling_down _ _ _ = false |- _ => apply Qltb_ge in H
  end.

Ltac arith :=
  solve [ exact I | assumption | lra | left; assumption | right; lra
        | eexists; split; [reflexivity | lra]
        | eexists; split; [eassumption | lra] ].

Ltac finish :=
  open_hyps; unfold_constants;
  repeat match goal with |- _ /\ _ => split end;
  first [ arith
        | match goal with H : _ \/ _ |- _ => destruct H; arith end ].

Lemma timing_step (names : nat -> string) (i : Input) (s : State) :
  steady i -> timing s -> timing (step names i s).
Proof.
  unfold steady, timing, progress, anchor_stale, stopped_count. intros Hdt [Hp Ha].
  by_statement s i; cbn [pc clock current_time last_detection_time recorder_log] in Hp, Ha;
    split_tests; cbn [filter List.length last_stopped];
    sleep_is_positive;
    finish.
Qed.

(** ** Structure along a run *)

Lemma open_after_snoc (o : bool) (h : list RecorderEvent) (e : RecorderEvent) :
  open_after o (h ++ [e]) = match e with Started _ _ => true | Stopped _ => false end.
Proof.
  revert o. induction h as [|a h IH]; intros o; simpl.
  - destruct e; reflexivity.
  - destruct a; apply IH.
Qed.

Lemma sessions_disjoint_snoc (o : bool) (h : list RecorderEvent) (e : RecorderEvent) :
  sessions_disjoint o (h ++ [e])
  = sessions_disjoint o h &&
    match e with Started _ _ => negb (open_after o h) | Stopped _ => open_after o h end.
Proof.
  revert o. induction h as [|a h IH]; intros o; simpl.
  - destruct e; simpl; rewrite andb_true_r; reflexivity.
  - destruct a; rewrite IH, andb_assoc; reflexivity.
Qed.

Lemma open_after_history (log : list RecorderEvent) :
  open_after false (rev log) = log_open log.
Proof.
  destruct log as [|e log]; [reflexivity|].
  simpl rev. rewrite open_after_snoc. destruct e; reflexivity.
Qed.

Lemma sessions_disjoint_history (log : list RecorderEvent) :
  sessions_disjoint false (rev log) = log_ok log.
Proof.
  induction log as [|e log IH]; [reflexivity|].
  simpl rev. rewrite sessions_disjoint_snoc, IH, open_after_history.
  destruct e; simpl; apply andb_comm.
Qed.

Lemma shape_boot (clock0 : Q) (fs0 : FileSystem) : shape (boot clock0 fs0).
Proof. repeat split. Qed.

Lemma shape_step (names : nat -> string) (i : Input) (s : State) :
  shape s -> shape (step names i s).
Proof.
  unfold shape. intros (Hc & Hf & Hok & Ho).
  by_statement s i;
    cbn [pc picam2 fs recorder_log video_filename config_at] in Hc, Hf, Hok, Ho;
    split_tests; cbn [config_at log_ok log_open];
    open_hyps;
    repeat match goal with H : _ = _ |- _ => rewrite H end;
    repeat split;
    solve [ assumption | reflexivity | apply ensure_video_folder_exists ].
Qed.

Lemma shape_run (names : nat -> string) (inputs : list Input) (clock0 : Q) (fs0 : FileSystem) :
  shape (run names inputs (boot clock0 fs0)).
Proof.
  apply (run_invariant names (fun _ => True)).
  - intros i s _. apply shape_step.
  - clear. induction inputs; constructor; auto.
  - apply shape_boot.
Qed.

Lemma timing_run (names : nat -> string) (inputs : list Input) (clock0 : Q) (fs0 : FileSystem) :
  Forall steady inputs -> timing (run names inputs (boot clock0 fs0)).
Proof.
  intros H. apply (run_invariant names steady); auto using timing_step, timing_boot.
Qed.

Lemma since_boot_step (names : nat -> string) (clock0 : Q) (i : Input) (s : State) :
  steady i -> since_boot clock0 s -> since_boot clock0 (step names i s).
Proof.
  unfold steady, since_boot, stopped_count. intros Hdt (Hc & Hp & Hl).
  by_statement s i; cbn [pc clock current_time last_detection_time recorder_log] in Hc, Hp, Hl;
    split_tests; cbn [filter List.length];
    sleep_is_positive;
    unfold_constants;
    (split; [lra | split; [first [exact I | assumption | lra | discriminate] |]]);
    first [ exact Hl | intros; reflexivity | intros Hz; discriminate Hz
          | intros Hz; contradiction ].
Qed.

Lemma since_boot_run (names : nat -> string) (inputs : list Input) (clock0 : Q) (fs0 : FileSystem) :
  Forall steady inputs -> since_boot clock0 (run names inputs (boot clock0 fs0)).
Proof.
  intros H. apply (run_invariant names steady); auto using since_boot_step.
  repeat split. simpl. lra.
Qed.

(** Line 57 is entered from the test of line 56 only. *)
Lemma into_L57 (names : nat -> string) (i : Input) (s : State) :
  pc (step names i s) = L57 -> pc s <> L57 ->
  pc s = L56 /\
  cooling_down (current_time s) (last_detection_time s) COOLDOWN_SECONDS = true.
Proof.
  intros H Hn. revert H.
  by_statement s i; split_tests; intros H; try discriminate H; try (now elim Hn).
  split; reflexivity.
Qed.

(** X5: with the clock at or past [COOLDOWN_SECONDS] when [main] is
    entered and never stepping back, the test of line 56 never holds: neither before the first recording,
    where the anchor is [0], nor after one, where the anchor is at least
    the settle delay and the recording duration old.  The idle branch of
    line 57 is never executed, and every iteration polls. *)
Lemma line_57_never_runs (names : nat -> string) (inputs : list Input)
    (clock0 : Q) (fs0 : FileSystem) :
  Forall steady inputs -> COOLDOWN_SECONDS <= clock0 ->
  pc (run names inputs (boot clock0 fs0)) <> L57.
Proof.
  intros Hin H0. induction inputs as [|i inputs IH] using rev_ind; [discriminate|].
  apply Forall_app in Hin. destruct Hin as [Hin _]. specialize (IH Hin).
  rewrite run_app. cbn [run fold_left]. intros H.
  destruct (into_L57 names i _ H IH) as [Hpc Ht].
  destruct (timing_run names inputs clock0 fs0 Hin) as [_ Ha].
  destruct (since_boot_run names inputs clock0 fs0 Hin) as (_ & Hp & Hl).
  unfold anchor_stale in Ha. rewrite Hpc in Ha, Hp.
  apply cooling_down_iff in Ht. unfold_constants.
  destruct Ha as [Ha|Ha]; [rewrite (Hl Ha) in Ht|]; lra.
Qed.

(** ** The pure pieces inside the loop *)

(** Lines 54-58: the iteration goes on to capture a frame exactly when the
    gate is open on the reading of line 54. *)
Lemma gate_in_loop (names : nat -> string) (i j : Input) (s : State) :
  pc s = L54 -> outcome i = Returns -> outcome j = Returns ->
  pc (run names [i; j] s)
  = if isQuiet (clock s) (last_detection_time s) COOLDOWN_SECONDS then L61 else L57.
Proof.
  destruct s, i, j. cbn [pc outcome clock last_detection_time].
  intros -> -> ->. unfold isQuiet. cbn.
  destruct (cooling_down _ _ _); reflexivity.
Qed.

(** Lines 65-69: the recording branch is taken exactly when the trigger
    holds of the boxes the detector returned. *)
Lemma trigger_in_loop (names : nat -> string) (i j : Input) (s : State) :
  pc s = L65 -> outcome i = Returns -> outcome j = Returns ->
  pc (run names [i; j] s) = if trigger names (boxes i) then L70 else L105.
Proof.
  destruct s, i, j. cbn [pc outcome boxes].
  intros -> -> ->. unfold trigger. cbn.
  destruct (existsb _ _); reflexivity.
Qed.

(** Lines 105-107: the two statements take their own time plus the pacing
    sleep computed from the reading of line 105. *)
Lemma pacing_in_loop (names : nat -> string) (i j : Input) (s : State) :
  pc s = L105 -> outcome i = Returns -> outcome j = Returns ->
  pc (run names [i; j] s) = L54 /\
  clock (run names [i; j] s)
  == clock s + dt i
     + slept (pacing_sleep (time_to_next_detection (current_time s) (clock s))) + dt j.
Proof.
  destruct s, i, j. cbn [pc outcome clock current_time dt].
  intros -> -> ->. cbn -[pacing_sleep time_to_next_detection Qplus].
  destruct (pacing_sleep _); cbn -[Qplus]; split; try reflexivity; lra.
Qed.

(** C3: in the loop, with [p >= 0] the time elapsed at line 105 since the
    reading of line 54, lines 106-107 sleep exactly [max 0 (interval - p)]:
    the statement after line 105 advances the clock by that much beyond
    its own time, the delay asked of [time.sleep] being the remainder
    [interval - p] when [p < interval], and no sleep being taken at all
    when [p >= interval]. *)
Theorem loop_sleeps_remainder (names : nat -> string) (s : State) (i j : Input) :
  pc s = L105 -> returns i -> returns j ->
  let p := clock s - current_time s in
  0 <= p ->
  let s1 := step names i s in
  let s2 := step names j s1 in
  pc s1 = L106 /\ pc s2 = L54 /\
  clock s2 == clock s1 + Qmax 0 (DETECTION_INTERVAL_SECONDS - p) + dt j /\
  (p < DETECTION_INTERVAL_SECONDS ->
   pacing_sleep (time_to_next s1) = Some (DETECTION_INTERVAL_SECONDS - p)) /\
  (DETECTION_INTERVAL_SECONDS <= p ->
   pacing_sleep (time_to_next s1) = None /\ clock s2 = clock s1 + dt j).
Proof.
  intros Hpc Hi Hj p Hp s1 s2. unfold returns in *. subst s1 s2 p.
  destruct s as [l clk ct ldt objs vf ttn cam fsys log], i as [oi di bi wi],
    j as [oj dj bj wj].
  cbn [pc outcome dt clock current_time] in *. subst.
  cbn [step exec terminal pc goto elapse set_time_to_next
       clock current_time time_to_next outcome dt].
  pose proof (pacing_sleep_spec ct clk) as T. cbv zeta in T.
  destruct (T Hp) as (Hs & Hlt & Hge). clear T.
  split; [reflexivity|].
  destruct (pacing_sleep (time_to_next_detection ct clk)) as [d|] eqn:E;
    cbn [slept] in Hs; rewrite <- Hs;
    cbn [pc goto elapse clock set_time_to_next];
    (split; [reflexivity|]); (split; [lra|]); split.
  - exact Hlt.
  - intros H. discriminate (proj1 (conj (Hge H) I)).
  - intros H. discriminate (Hlt H).
  - intros H. split; reflexivity.
Qed.


(** ** The anchor of the cool-down *)

(** C1 (what the code does): when line 102 runs, the anchor becomes
    [current_time], the reading taken at line 54 before the poll, while the
    recording returned at least the settle delay plus the recording
    duration later. *)
Theorem anchor_is_poll_start (names : nat -> string) (inputs : list Input)
    (clock0 : Q) (fs0 : FileSystem) (i : Input) :
  Forall steady inputs ->
  let s := run names inputs (boot clock0 fs0) in
  pc s = L102 -> outcome i = Returns ->
  last_detection_time (step names i s) = current_time s /\
  exists t, last_stopped (recorder_log (step names i s)) = Some t /\
            last_detection_time (step names i s)
              + SETTLE_SECONDS + VIDEO_DURATION_SECONDS <= t.
Proof.
  intros Hin s Hpc Hout.
  destruct (timing_run names inputs clock0 fs0 Hin) as [Hp _].
  fold s in Hp. unfold progress in Hp. rewrite Hpc in Hp.
  destruct Hp as (_ & t & Ht & Hle).
  unfold step. rewrite Hpc, Hout. cbn [terminal]. unfold exec. rewrite Hpc.
  cbn. split; [reflexivity|]. exists t. split; assumption.
Qed.

(** ** The gate after a recording *)

(** C10: once a recording has returned, every test of line 56 finds the
    cool-down over, and the idle branch of line 57 is only ever entered
    while no recording has returned yet. *)
Theorem cooldown_never_waits_after_recording (names : nat -> string)
    (inputs : list Input) (clock0 : Q) (fs0 : FileSystem) :
  Forall steady inputs ->
  let s := run names inputs (boot clock0 fs0) in
  (pc s = L56 -> (0 < stopped_count s)%nat ->
   cooling_down (current_time s) (last_detection_time s) COOLDOWN_SECONDS = false) /\
  (pc s = L57 -> stopped_count s = 0%nat).
Proof.
  intros Hin s.
  destruct (timing_run names inputs clock0 fs0 Hin) as [_ Ha].
  fold s in Ha. unfold anchor_stale in Ha. split.
  - intros Hpc Hn. rewrite Hpc in Ha. destruct Ha as [Ha|Ha]; [lia|].
    apply Qltb_ge. unfold_constants. lra.
  - intros Hpc. rewrite Hpc in Ha. exact Ha.
Qed.

(** ** Recording sessions *)

(** C6: in the history of every run, a recording is started only when no
    session is open and stopped only when one is: sessions never overlap,
    whatever the timing and whatever interrupts or failures occur. *)
Theorem recordings_never_overlap (names : nat -> string) (inputs : list Input)
    (clock0 : Q) (fs0 : FileSystem) :
  sessions_disjoint false (history (run names inputs (boot clock0 fs0))) = true.
Proof.
  unfold history. rewrite sessions_disjoint_history.
  apply (shape_run names inputs clock0 fs0).
Qed.

(** ** Camera configuration and controller state *)




(** ** Exits *)

(** C7 (what the code does): when the operator interrupts the sleep of
    line 89, the handler prints, the [finally] clause stops the camera, and
    [main] returns; [stop_recording] is not called on this path, so the
    output of the recording is still open and the camera keeps the video
    configuration. *)
Theorem interrupt_while_recording (names : nat -> string) (inputs : list Input)
    (clock0 : Q) (fs0 : FileSystem) (i j k : Input) :
  let s := run names inputs (boot clock0 fs0) in
  pc s = L89 ->
  outcome i = KeyboardInterrupt -> outcome j = Returns -> outcome k = Returns ->
  let s' := run names [i; j; k] s in
  pc s' = Returned /\
  running (picam2 s') = false /\
  recording_to (picam2 s') = Some (video_filename s) /\
  configuration (picam2 s') = Some video_config /\
  recorder_log s' = recorder_log s /\
  open_after false (history s') = true.
Proof.
  intros s Hpc Hi Hj Hk.
  destruct (shape_run names inputs clock0 fs0) as (Hc & _ & _ & Ho).
  fold s in Hc, Ho. rewrite Hpc in Hc, Ho. cbn [config_at] in Hc. destruct Ho as [Hopen Hr].
  unfold run, fold_left, step.
  rewrite Hpc, Hi. cbn. rewrite Hj. cbn. rewrite Hk. cbn.
  repeat split; try assumption.
  unfold history. cbn. rewrite open_after_history. exact Hopen.
Qed.

(** C8, amended: when [start_recording] or [stop_recording] raises, the
    exception passes through the [finally] clause and leaves [main]: line
    102 is not reached, the anchor keeps its value, the camera is stopped
    if [picam2.stop()] returns, and no recorder call follows, so the
    recording is not attempted again. *)
Theorem recorder_failure_ends_run (names : nat -> string) (inputs : list Input)
    (clock0 : Q) (fs0 : FileSystem) (i j : Input) (rest : list Input) :
  let s := run names inputs (boot clock0 fs0) in
  pc s = L86 \/ pc s = L91 ->
  outcome i = Raises ->
  let s' := run names (i :: j :: rest) s in
  pc s' = Raised /\
  last_detection_time s' = last_detection_time s /\
  recorder_log s' = recorder_log s /\
  (outcome j = Returns -> running (picam2 s') = false).
Proof.
  intros s Hpc Hi s'. subst s'.
  rewrite !run_cons.
  assert (H1 : pc (step names i s) = L112_raising /\
               last_detection_time (step names i s) = last_detection_time s /\
               recorder_log (step names i s) = recorder_log s).
  { unfold step. destruct Hpc as [Hpc|Hpc]; rewrite Hpc, Hi; cbn; auto. }
  destruct H1 as (P1 & A1 & R1).
  set (s1 := step names i s) in *.
  assert (H2 : pc (step names j s1) = Raised /\
               last_detection_time (step names j s1) = last_detection_time s1 /\
               recorder_log (step names j s1) = recorder_log s1 /\
               (outcome j = Returns -> running (picam2 (step names j s1)) = false)).
  { unfold step. rewrite P1. cbn [terminal].
    destruct (outcome j); cbn; try (unfold exec; rewrite P1; cbn);
      repeat split; intros; (reflexivity || discriminate). }
  destruct H2 as (P2 & A2 & R2 & C2).
  rewrite terminal_run by (rewrite P2; reflexivity).
  repeat split; try congruence. exact C2.
Qed.

(** ** Names of the recordings *)

(** Line 86 is entered from line 79 only, with the file name just made. *)
Lemma into_L86 (names : nat -> string) (x : Input) (s : State) :
  pc (step names x s) = L86 ->
  pc s = L79 /\ outcome x = Returns /\
  video_filename (step names x s) = video_filename_of (strftime (wall x)).
Proof.
  by_statement s x; split_tests; intros H; try discriminate H.
  repeat split.
Qed.

(** What one statement does to the recorder log. *)
Lemma log_step (names : nat -> string) (x : Input) (s : State) :
  recorder_log (step names x s) = recorder_log s \/
  (pc s = L86 /\ outcome x = Returns /\
   recorder_log (step names x s)
   = Started (video_filename s) (clock s) :: recorder_log s) \/
  (exists t, recorder_log (step names x s) = Stopped t :: recorder_log s).
Proof.
  by_statement s x; split_tests;
    first [ left; reflexivity
          | right; left; repeat split; reflexivity
          | right; right; eexists; reflexivity ].
Qed.

Lemma naming_step (names : nat -> string) (s0 : State) (inputs : list Input) (x : Input) :
  naming names s0 inputs (run names inputs s0) ->
  naming names s0 (inputs ++ [x]) (run names (inputs ++ [x]) s0).
Proof.
  intros [Hv Hl]. rewrite run_app. cbn [run fold_left].
  set (s := run names inputs s0) in *. split.
  - intros Hpc. destruct (into_L86 names x s Hpc) as (P & O & V).
    exists inputs, x. auto.
  - intros f t Hin.
    assert (Hold : In (Started f t) (recorder_log s) ->
                   started_by names s0 (inputs ++ [x]) f t).
    { intros H. destruct (Hl f t H) as (pre & i & j & post & E & R).
      exists pre, i, j, (post ++ [x]). split; [|exact R].
      rewrite E, <- app_assoc. reflexivity. }
    destruct (log_step names x s) as [E | [(P & O & E) | (t' & E)]]; rewrite E in Hin.
    + now apply Hold.
    + destruct Hin as [Hnew | Hin]; [|now apply Hold].
      injection Hnew as Ef Et.
      destruct (Hv P) as (pre & i & Ei & Pp & Oi & Vi).
      exists pre, i, x, []. repeat split; try assumption.
      * rewrite Ei, <- app_assoc. reflexivity.
      * now rewrite <- Ef.
      * rewrite <- Et. unfold s. now rewrite Ei.
    + destruct Hin as [Hnew | Hin]; [discriminate Hnew | now apply Hold].
Qed.

Lemma naming_run (names : nat -> string) (inputs : list Input) (clock0 : Q) (fs0 : FileSystem) :
  naming names (boot clock0 fs0) inputs (run names inputs (boot clock0 fs0)).
Proof.
  induction inputs as [|x inputs IH] using rev_ind.
  - split; [discriminate | intros f t []].
  - apply naming_step, IH.
Qed.

(** C9: every recording started in a run is written to the file
    [squirrel_videos/video_<timestamp>.mp4] whose timestamp was formatted
    from the [datetime.now()] reading of line 79 in the statement just
    before its [start_recording]; the folder exists by then, made at line
    43 if it was absent; the timestamp has the layout
    [YYYY-MM-DD_HH-MM-SS]; and names compare under the order of strings as
    the six formatted fields of their readings do, so that the name is
    monotone in the reading. *)
Theorem video_filename_spec (names : nat -> string) (inputs : list Input)
    (clock0 : Q) (fs0 : FileSystem) :
  let s := run names inputs (boot clock0 fs0) in
  (forall f t, In (Started f t) (recorder_log s) ->
     exists pre i j post,
       inputs = pre ++ i :: j :: post /\
       pc (run names pre (boot clock0 fs0)) = L79 /\
       outcome i = Returns /\ outcome j = Returns /\
       f = ("squirrel_videos/video_" ++ strftime (wall i) ++ ".mp4")%string /\
       t = clock (run names (pre ++ [i]) (boot clock0 fs0))) /\
  (pc s = L86 -> os_path_exists VIDEO_FOLDER (fs s) = true) /\
  (os_path_exists VIDEO_FOLDER (ensure_video_folder fs0) = true /\
   (os_path_exists VIDEO_FOLDER fs0 = false ->
    is_directory VIDEO_FOLDER (ensure_video_folder fs0) = true)) /\
  (forall d, valid_datetime d -> timestamp_shape (strftime d) = true) /\
  (forall d1 d2, valid_datetime d1 -> valid_datetime d2 ->
     String.compare (video_filename_of (strftime d1)) (video_filename_of (strftime d2))
     = fields_compare d1 d2 Eq /\
     (datetime_le d1 d2 ->
      String.leb (video_filename_of (strftime d1)) (video_filename_of (strftime d2))
      = true)).
Proof.
  intros s. split; [|split; [|split; [|split]]].
  - intros f t Hin.
    destruct (naming_run names inputs clock0 fs0) as [_ Hl].
    destruct (Hl f t Hin) as (pre & i & j & post & E & P & Oi & Oj & Ef & Et).
    exists pre, i, j, post. repeat split; assumption.
  - intros Hpc. destruct (shape_run names inputs clock0 fs0) as (_ & Hf & _).
    fold s in Hf. rewrite Hpc in Hf. exact Hf.
  - apply ensure_video_folder_exists.
  - apply strftime_shape.
  - intros d1 d2 V1 V2. split.
    + now apply video_filename_compare.
    + now apply video_filename_monotone.
Qed.

(** * Instances *)

Lemma steady_forallb (inputs : list Input) :
  forallb steadyb inputs = true -> Forall steady inputs.
Proof.
  intros H. apply Forall_forall. intros i Hi.
  apply (proj1 (forallb_forall _ _) H) in Hi. now apply Qle_bool_iff.
Defined.

Lemma isQuiet_spec_witness :
  40 <= 100 /\
  ((isQuiet 100 40 30 = false <-> 100 - 40 < 30) /\
   (isQuiet 100 0 30 = true <-> 30 <= 100)).
Proof.
  split; [unfold Qle; simpl; lia | apply (isQuiet_spec 100 40 30); unfold Qle; simpl; lia].
Defined.

(** C2 as stated fails: with the anchor at its initial [0] and the clock
    reading ten seconds, the test of line 56 holds and the first iteration
    idles instead of polling. *)
Lemma gate_closed_at_boot :
  0 <= 10 /\
  isQuiet 10 0 COOLDOWN_SECONDS = false /\
  pc (run coco_names (startup ++ [ok 0; ok 0]) (boot 10 [])) = L57.
Proof. vm_compute. repeat split; discriminate. Qed.

Lemma anchor_is_poll_start_witness :
  Forall steady up_to_arming /\
  pc (run coco_names up_to_arming (boot 1000 [])) = L102 /\
  outcome (ok 0) = Returns /\
  (last_detection_time (step coco_names (ok 0) (run coco_names up_to_arming (boot 1000 [])))
   = current_time (run coco_names up_to_arming (boot 1000 [])) /\
   exists t,
     last_stopped (recorder_log (step coco_names (ok 0)
                                   (run coco_names up_to_arming (boot 1000 [])))) = Some t /\
     last_detection_time (step coco_names (ok 0) (run coco_names up_to_arming (boot 1000 [])))
       + SETTLE_SECONDS + VIDEO_DURATION_SECONDS <= t).
Proof.
  assert (H : Forall steady up_to_arming) by (apply steady_forallb; vm_compute; reflexivity).
  assert (P : pc (run coco_names up_to_arming (boot 1000 [])) = L102)
    by (vm_compute; reflexivity).
  exact (conj H (conj P (conj eq_refl
          (anchor_is_poll_start coco_names up_to_arming 1000 [] (ok 0) H P eq_refl)))).
Defined.

Lemma cooldown_never_waits_after_recording_witness :
  Forall steady cycle_and_next /\
  pc (run coco_names cycle_and_next (boot 1000 [])) = L56 /\
  (0 < stopped_count (run coco_names cycle_and_next (boot 1000 [])))%nat /\
  cooling_down (current_time (run coco_names cycle_and_next (boot 1000 [])))
               (last_detection_time (run coco_names cycle_and_next (boot 1000 [])))
               COOLDOWN_SECONDS = false.
Proof.
  assert (H : Forall steady cycle_and_next) by (apply steady_forallb; vm_compute; reflexivity).
  assert (P : pc (run coco_names cycle_and_next (boot 1000 [])) = L56)
    by (vm_compute; reflexivity).
  assert (N : (0 < stopped_count (run coco_names cycle_and_next (boot 1000 [])))%nat)
    by (vm_compute; lia).
  exact (conj H (conj P (conj N
          (proj1 (cooldown_never_waits_after_recording coco_names cycle_and_next 1000 [] H)
                 P N)))).
Defined.

Lemma interrupt_while_recording_witness :
  pc (run coco_names (startup ++ poll_cat ++ [ok 0; ok 0; ok 0]) (boot 1000 [])) = L89 /\
  outcome (interrupted 20) = KeyboardInterrupt /\
  outcome (ok 0) = Returns /\
  (pc (run coco_names [interrupted 20; ok 0; ok 0]
         (run coco_names (startup ++ poll_cat ++ [ok 0; ok 0; ok 0]) (boot 1000 [])))
   = Returned /\
   running (picam2 (run coco_names [interrupted 20; ok 0; ok 0]
                      (run coco_names (startup ++ poll_cat ++ [ok 0; ok 0; ok 0])
                           (boot 1000 [])))) = false /\
   recording_to (picam2 (run coco_names [interrupted 20; ok 0; ok 0]
                           (run coco_names (startup ++ poll_cat ++ [ok 0; ok 0; ok 0])
                                (boot 1000 []))))
   = Some (video_filename (run coco_names (startup ++ poll_cat ++ [ok 0; ok 0; ok 0])
                               (boot 1000 []))) /\
   configuration (picam2 (run coco_names [interrupted 20; ok 0; ok 0]
                            (run coco_names (startup ++ poll_cat ++ [ok 0; ok 0; ok 0])
                                 (boot 1000 [])))) = Some video_config /\
   recorder_log (run coco_names [interrupted 20; ok 0; ok 0]
                   (run coco_names (startup ++ poll_cat ++ [ok 0; ok 0; ok 0])
                        (boot 1000 [])))
   = recorder_log (run coco_names (startup ++ poll_cat ++ [ok 0; ok 0; ok 0])
                       (boot 1000 [])) /\
   open_after false
     (history (run coco_names [interrupted 20; ok 0; ok 0]
                 (run coco_names (startup ++ poll_cat ++ [ok 0; ok 0; ok 0])
                      (boot 1000 [])))) = true).
Proof.
  assert (P : pc (run coco_names (startup ++ poll_cat ++ [ok 0; ok 0; ok 0])
                      (boot 1000 [])) = L89)
    by (vm_compute; reflexivity).
  exact (conj P (conj eq_refl (conj eq_refl
          (interrupt_while_recording coco_names (startup ++ poll_cat ++ [ok 0; ok 0; ok 0])
             1000 [] (interrupted 20) (ok 0) (ok 0) P eq_refl eq_refl eq_refl)))).
Defined.

(** The same run, evaluated: [main] has returned, the camera is stopped,
    one recording was started, none stopped, and its output is open. *)
Lemma interrupt_leaves_output_open :
  let s := run coco_names (interrupted_recording ++ [ok 0; ok 0]) (boot 1000 []) in
  pc s = Returned /\
  running (picam2 s) = false /\
  recording_to (picam2 s) = Some "squirrel_videos/video_2025-06-01_12-00-00.mp4"%string /\
  configuration (picam2 s) = Some video_config /\
  started_count s = 1%nat /\ stopped_count s = 0%nat /\
  open_after false (history s) = true.
Proof. vm_compute. repeat split. Qed.

Lemma recorder_failure_ends_run_witness :
  (pc (run coco_names (startup ++ poll_cat ++ record) (boot 1000 [])) = L86 \/
   pc (run coco_names (startup ++ poll_cat ++ record) (boot 1000 [])) = L91) /\
  outcome (failing 0) = Raises /\
  (pc (run coco_names [failing 0; ok 0]
         (run coco_names (startup ++ poll_cat ++ record) (boot 1000 []))) = Raised /\
   last_detection_time
     (run coco_names [failing 0; ok 0]
        (run coco_names (startup ++ poll_cat ++ record) (boot 1000 [])))
   = last_detection_time (run coco_names (startup ++ poll_cat ++ record) (boot 1000 [])) /\
   recorder_log
     (run coco_names [failing 0; ok 0]
        (run coco_names (startup ++ poll_cat ++ record) (boot 1000 [])))
   = recorder_log (run coco_names (startup ++ poll_cat ++ record) (boot 1000 [])) /\
   (outcome (ok 0) = Returns ->
    running (picam2 (run coco_names [failing 0; ok 0]
                       (run coco_names (startup ++ poll_cat ++ record) (boot 1000 []))))
    = false)).
Proof.
  assert (P : pc (run coco_names (startup ++ poll_cat ++ record) (boot 1000 [])) = L91)
    by (vm_compute; reflexivity).
  exact (conj (or_intror P) (conj eq_refl
          (recorder_failure_ends_run coco_names (startup ++ poll_cat ++ record) 1000 []
             (failing 0) (ok 0) [] (or_intror P) eq_refl))).
Defined.

(** C8 as stated fails: [stop_recording] raises at line 91; the run ends
    with the exception leaving [main] and the anchor still at its initial
    [0], neither the poll's start (1000) nor the time of the failure. *)
Lemma anchor_kept_on_recorder_failure :
  let s := run coco_names (startup ++ poll_cat ++ record ++ [failing 0; ok 0]) (boot 1000 []) in
  pc s = Raised /\
  last_detection_time s == 0 /\
  current_time s == 1000 /\
  clock s == 1061 /\
  ~ last_detection_time s == current_time s.
Proof. vm_compute. repeat split; discriminate. Qed.

Lemma loop_sleeps_remainder_witness :
  pc (run coco_names up_to_pacing (boot 1000 [])) = L105 /\
  returns (ok (1 # 100)) /\
  0 <= clock (run coco_names up_to_pacing (boot 1000 []))
       - current_time (run coco_names up_to_pacing (boot 1000 [])) /\
  clock (run coco_names up_to_pacing (boot 1000 []))
  - current_time (run coco_names up_to_pacing (boot 1000 [])) < DETECTION_INTERVAL_SECONDS /\
  pc (step coco_names (ok (1 # 100))
        (step coco_names (ok (1 # 100)) (run coco_names up_to_pacing (boot 1000 [])))) = L54 /\
  pacing_sleep (time_to_next (step coco_names (ok (1 # 100))
                                (run coco_names up_to_pacing (boot 1000 []))))
  = Some (DETECTION_INTERVAL_SECONDS
          - (clock (run coco_names up_to_pacing (boot 1000 []))
             - current_time (run coco_names up_to_pacing (boot 1000 [])))).
Proof.
  assert (P : pc (run coco_names up_to_pacing (boot 1000 [])) = L105)
    by (vm_compute; reflexivity).
  assert (Hp : 0 <= clock (run coco_names up_to_pacing (boot 1000 []))
                    - current_time (run coco_names up_to_pacing (boot 1000 [])))
    by (vm_compute; discriminate).
  assert (Hlt : clock (run coco_names up_to_pacing (boot 1000 []))
                - current_time (run coco_names up_to_pacing (boot 1000 []))
                < DETECTION_INTERVAL_SECONDS)
    by (vm_compute; reflexivity).
  pose proof (loop_sleeps_remainder coco_names (run coco_names up_to_pacing (boot 1000 []))
                (ok (1 # 100)) (ok (1 # 100)) P eq_refl eq_refl) as T.
  cbv zeta in T. destruct (T Hp) as (_ & A & _ & B & _).
  exact (conj P (conj eq_refl (conj Hp (conj Hlt (conj A (B Hlt)))))).
Defined.



Lemma video_filename_spec_witness :
  In (Started "squirrel_videos/video_2025-06-01_12-00-00.mp4" (2002000 # 2000))
     (recorder_log (run coco_names cycle_and_next (boot 1000 []))) /\
  valid_datetime noon /\ valid_datetime later /\ datetime_le noon later /\
  (exists pre i j post,
     cycle_and_next = pre ++ i :: j :: post /\
     pc (run coco_names pre (boot 1000 [])) = L79 /\
     outcome i = Returns /\ outcome j = Returns /\
     "squirrel_videos/video_2025-06-01_12-00-00.mp4"%string
     = ("squirrel_videos/video_" ++ strftime (wall i) ++ ".mp4")%string /\
     2002000 # 2000 = clock (run coco_names (pre ++ [i]) (boot 1000 []))) /\
  timestamp_shape (strftime noon) = true /\
  String.compare (video_filename_of (strftime noon)) (video_filename_of (strftime later))
  = fields_compare noon later Eq /\
  String.leb (video_filename_of (strftime noon)) (video_filename_of (strftime later)) = true.
Proof.
  assert (Hin : In (Started "squirrel_videos/video_2025-06-01_12-00-00.mp4" (2002000 # 2000))
                   (recorder_log (run coco_names cycle_and_next (boot 1000 []))))
    by (vm_compute; right; left; reflexivity).
  assert (V1 : valid_datetime noon) by (unfold valid_datetime; simpl; lia).
  assert (V2 : valid_datetime later) by (unfold valid_datetime; simpl; lia).
  assert (Hle : datetime_le noon later) by (vm_compute; discriminate).
  pose proof (video_filename_spec coco_names cycle_and_next 1000 []) as T.
  cbv zeta in T. destruct T as (A & _ & _ & B & C).
  exact (conj Hin (conj V1 (conj V2 (conj Hle
          (conj (A _ _ Hin) (conj (B noon V1)
             (conj (proj1 (C noon later V1 V2)) (proj2 (C noon later V1 V2) Hle)))))))).
Defined.

(** * Further properties of [main] *)

(** ** Start-up and exits *)

(** X1: when loading the model raises (lines 22-27), [main] prints and
    returns at once: the camera object is never made, the output folder is
    not created, and nothing is recorded, whatever happens afterwards. *)
Theorem model_load_failure_returns (names : nat -> string) (clock0 : Q)
    (fs0 : FileSystem) (i : Input) (rest : list Input) :
  outcome i = Raises ->
  let s := run names (i :: rest) (boot clock0 fs0) in
  pc s = Returned /\ picam2 s = new_camera /\ fs s = fs0 /\ recorder_log s = [].
Proof.
  intros Hi s. subst s. rewrite run_cons.
  assert (E : step names i (boot clock0 fs0)
              = elapse (dt i) (goto Returned (boot clock0 fs0))).
  { unfold step. cbn [boot pc terminal]. rewrite Hi. reflexivity. }
  rewrite E, terminal_run by reflexivity.
  repeat split.
Qed.

Lemma model_load_failure_returns_witness :
  outcome (failing (2 # 1)) = Raises /\
  (pc (run coco_names (failing (2 # 1) :: poll_cat) (boot 1000 [])) = Returned /\
   picam2 (run coco_names (failing (2 # 1) :: poll_cat) (boot 1000 [])) = new_camera /\
   fs (run coco_names (failing (2 # 1) :: poll_cat) (boot 1000 [])) = [] /\
   recorder_log (run coco_names (failing (2 # 1) :: poll_cat) (boot 1000 [])) = []).
Proof.
  exact (conj eq_refl
           (model_load_failure_returns coco_names 1000 [] (failing (2 # 1)) poll_cat eq_refl)).
Defined.

(** X7: an exception other than [KeyboardInterrupt] raised by any statement
    inside the [try] (a failed capture, a failed detection, a failed mode
    switch) is not caught: the [finally] clause stops the camera and the
    exception leaves [main].  The loop does not go on, no recorder call
    follows, and the anchor and the file system are as they were. *)
Theorem exception_in_loop_ends_run (names : nat -> string) (s : State)
    (i j : Input) (rest : list Input) :
  in_try (pc s) = true ->
  outcome i = Raises -> outcome j = Returns ->
  let s' := run names (i :: j :: rest) s in
  pc s' = Raised /\
  picam2 s' = stop (picam2 s) /\
  recorder_log s' = recorder_log s /\
  last_detection_time s' = last_detection_time s /\
  fs s' = fs s.
Proof.
  intros Htry Hi Hj s'. subst s'. rewrite !run_cons.
  assert (E : step names j (step names i s)
              = elapse (dt j) (goto Raised (set_picam2 (stop (picam2 s))
                  (elapse (dt i) (goto L112_raising s))))).
  { unfold step at 2. destruct s as [l clk ct ldt objs vf ttn cam fsys log].
    cbn [pc] in Htry |- *. rewrite Hi.
    destruct l; try discriminate Htry; cbn [terminal on_Exception];
      unfold step; cbn [elapse goto pc terminal]; rewrite Hj; reflexivity. }
  rewrite E, terminal_run by reflexivity.
  repeat split.
Qed.

Lemma exception_in_loop_ends_run_witness :
  in_try (pc (run coco_names (startup ++ [ok 0; ok 0]) (boot 1000 []))) = true /\
  outcome (failing (1 # 10)) = Raises /\ outcome (ok 0) = Returns /\
  (pc (run coco_names (failing (1 # 10) :: ok 0 :: poll_cat)
         (run coco_names (startup ++ [ok 0; ok 0]) (boot 1000 []))) = Raised /\
   picam2 (run coco_names (failing (1 # 10) :: ok 0 :: poll_cat)
             (run coco_names (startup ++ [ok 0; ok 0]) (boot 1000 [])))
   = stop (picam2 (run coco_names (startup ++ [ok 0; ok 0]) (boot 1000 []))) /\
   recorder_log (run coco_names (failing (1 # 10) :: ok 0 :: poll_cat)
                   (run coco_names (startup ++ [ok 0; ok 0]) (boot 1000 [])))
   = recorder_log (run coco_names (startup ++ [ok 0; ok 0]) (boot 1000 [])) /\
   last_detection_time (run coco_names (failing (1 # 10) :: ok 0 :: poll_cat)
                          (run coco_names (startup ++ [ok 0; ok 0]) (boot 1000 [])))
   = last_detection_time (run coco_names (startup ++ [ok 0; ok 0]) (boot 1000 [])) /\
   fs (run coco_names (failing (1 # 10) :: ok 0 :: poll_cat)
         (run coco_names (startup ++ [ok 0; ok 0]) (boot 1000 [])))
   = fs (run coco_names (startup ++ [ok 0; ok 0]) (boot 1000 []))).
Proof.
  assert (P : in_try (pc (run coco_names (startup ++ [ok 0; ok 0]) (boot 1000 []))) = true)
    by (vm_compute; reflexivity).
  exact (conj P (conj eq_refl (conj eq_refl
          (exception_in_loop_ends_run coco_names _ (failing (1 # 10)) (ok 0) poll_cat
             P eq_refl eq_refl)))).
Defined.

(** X8: an interrupt that reaches [main] inside the [try] at a statement
    that neither is a recorder call nor runs while a recording is open,
    that is anywhere but at lines 86, 89 and 91, ends it cleanly: the
    handler prints, the [finally] clause stops the camera, [main] returns,
    and no recorder output is open. *)
Theorem interrupt_outside_recording_is_clean (names : nat -> string)
    (inputs : list Input) (clock0 : Q) (fs0 : FileSystem) (i j k : Input) :
  let s := run names inputs (boot clock0 fs0) in
  in_try (pc s) = true -> pc s <> L86 -> pc s <> L89 -> pc s <> L91 ->
  outcome i = KeyboardInterrupt -> outcome j = Returns -> outcome k = Returns ->
  let s' := run names [i; j; k] s in
  pc s' = Returned /\
  running (picam2 s') = false /\
  recording_to (picam2 s') = None /\
  recorder_log s' = recorder_log s /\
  open_after false (history s') = false.
Proof.
  intros s. pose proof (shape_run names inputs clock0 fs0) as Hs. fold s in Hs.
  clearbody s. destruct Hs as (_ & _ & _ & Ho).
  intros Htry N86 N89 N91 Hi Hj Hk s'. subst s'.
  unfold history. rewrite open_after_history.
  destruct s as [l clk ct ldt objs vf ttn cam fsys log].
  cbn [pc picam2 recorder_log] in *.
  unfold run, fold_left, step. cbn [pc terminal]. rewrite Hi.
  destruct l; try discriminate Htry;
    try (now elim N86); try (now elim N89); try (now elim N91);
    destruct Ho as [Hopen Hr];
    cbn [on_KeyboardInterrupt goto elapse pc terminal]; rewrite Hj;
    cbn [exec goto elapse pc terminal]; rewrite Hk;
    cbn; repeat split; assumption.
Qed.

Lemma interrupt_outside_recording_is_clean_witness :
  in_try (pc (run coco_names (startup ++ [ok 0; ok 0; ok 0]) (boot 1000 []))) = true /\
  pc (run coco_names (startup ++ [ok 0; ok 0; ok 0]) (boot 1000 [])) <> L86 /\
  pc (run coco_names (startup ++ [ok 0; ok 0; ok 0]) (boot 1000 [])) <> L89 /\
  pc (run coco_names (startup ++ [ok 0; ok 0; ok 0]) (boot 1000 [])) <> L91 /\
  (pc (run coco_names [interrupted (1 # 10); ok 0; ok 0]
         (run coco_names (startup ++ [ok 0; ok 0; ok 0]) (boot 1000 []))) = Returned /\
   running (picam2 (run coco_names [interrupted (1 # 10); ok 0; ok 0]
                      (run coco_names (startup ++ [ok 0; ok 0; ok 0]) (boot 1000 []))))
   = false /\
   recording_to (picam2 (run coco_names [interrupted (1 # 10); ok 0; ok 0]
                           (run coco_names (startup ++ [ok 0; ok 0; ok 0]) (boot 1000 []))))
   = None /\
   recorder_log (run coco_names [interrupted (1 # 10); ok 0; ok 0]
                   (run coco_names (startup ++ [ok 0; ok 0; ok 0]) (boot 1000 [])))
   = recorder_log (run coco_names (startup ++ [ok 0; ok 0; ok 0]) (boot 1000 [])) /\
   open_after false
     (history (run coco_names [interrupted (1 # 10); ok 0; ok 0]
                 (run coco_names (startup ++ [ok 0; ok 0; ok 0]) (boot 1000 []))))
   = false).
Proof.
  assert (P : pc (run coco_names (startup ++ [ok 0; ok 0; ok 0]) (boot 1000 [])) = L65)
    by (vm_compute; reflexivity).
  assert (T : in_try (pc (run coco_names (startup ++ [ok 0; ok 0; ok 0]) (boot 1000 [])))
              = true) by (rewrite P; reflexivity).
  assert (N0 : pc (run coco_names (startup ++ [ok 0; ok 0; ok 0]) (boot 1000 [])) <> L86)
    by (rewrite P; discriminate).
  assert (N1 : pc (run coco_names (startup ++ [ok 0; ok 0; ok 0]) (boot 1000 [])) <> L89)
    by (rewrite P; discriminate).
  assert (N2 : pc (run coco_names (startup ++ [ok 0; ok 0; ok 0]) (boot 1000 [])) <> L91)
    by (rewrite P; discriminate).
  exact (conj T (conj N0 (conj N1 (conj N2
          (interrupt_outside_recording_is_clean coco_names (startup ++ [ok 0; ok 0; ok 0])
             1000 [] (interrupted (1 # 10)) (ok 0) (ok 0) T N0 N1 N2
             eq_refl eq_refl eq_refl))))).
Defined.

(** ** The camera during a poll *)

Lemma running_step (names : nat -> string) (i : Input) (s : State) :
  match running_at (pc s) with
  | Some b => running (picam2 s) = b
  | None => True
  end ->
  match running_at (pc (step names i s)) with
  | Some b => running (picam2 (step names i s)) = b
  | None => True
  end.
Proof.
  intros H.
  by_statement s i; cbn [pc picam2 running_at] in H; split_tests;
    cbn [running_at]; first [exact I | assumption | reflexivity].
Qed.

(** X9: whenever a frame is captured for detection (line 61) the camera is
    running, holds the low-resolution detection configuration, and no
    recording is open: detection never reads frames of a recording. *)
Theorem frame_captured_in_detection_mode (names : nat -> string)
    (inputs : list Input) (clock0 : Q) (fs0 : FileSystem) :
  let s := run names inputs (boot clock0 fs0) in
  pc s = L61 ->
  running (picam2 s) = true /\
  configuration (picam2 s) = Some detection_config /\
  recording_to (picam2 s) = None /\
  open_after false (history s) = false.
Proof.
  intros s Hpc.
  assert (Hr : match running_at (pc s) with
               | Some b => running (picam2 s) = b
               | None => True
               end).
  { apply (run_invariant names (fun _ => True)
             (fun st => match running_at (pc st) with
                        | Some b => running (picam2 st) = b
                        | None => True
                        end)).
    - intros i st _. apply running_step.
    - clear. induction inputs; constructor; auto.
    - exact I. }
  destruct (shape_run names inputs clock0 fs0) as (Hc & _ & _ & Ho).
  fold s in Hc, Ho. rewrite Hpc in Hr, Hc, Ho.
  cbn [running_at config_at] in Hr, Hc. destruct Ho as [Hopen Hrec].
  unfold history. rewrite open_after_history. auto.
Qed.

Lemma frame_captured_in_detection_mode_witness :
  pc (run coco_names (cycle_and_next ++ [ok 0]) (boot 1000 [])) = L61 /\
  (running (picam2 (run coco_names (cycle_and_next ++ [ok 0]) (boot 1000 []))) = true /\
   configuration (picam2 (run coco_names (cycle_and_next ++ [ok 0]) (boot 1000 [])))
   = Some detection_config /\
   recording_to (picam2 (run coco_names (cycle_and_next ++ [ok 0]) (boot 1000 []))) = None /\
   open_after false (history (run coco_names (cycle_and_next ++ [ok 0]) (boot 1000 [])))
   = false).
Proof.
  assert (P : pc (run coco_names (cycle_and_next ++ [ok 0]) (boot 1000 [])) = L61)
    by (vm_compute; reflexivity).
  exact (conj P (frame_captured_in_detection_mode coco_names (cycle_and_next ++ [ok 0])
                   1000 [] P)).
Defined.

(** ** Recordings *)

Lemma recording_clock_step (names : nat -> string) (i : Input) (s : State) :
  steady i -> recording_clock s -> recording_clock (step names i s).
Proof.
  unfold steady, recording_clock. intros Hdt [Hl Hp].
  by_statement s i; cbn [pc clock recorder_log] in Hl, Hp; split_tests;
    sleep_is_positive; unfold_constants;
    repeat match goal with
           | H : exists _, _ |- _ => destruct H
           | H : _ /\ _ |- _ => destruct H
           end;
    subst; cbn [session_lengths];
    (split; [first [assumption | constructor; [lra | assumption]] |]);
    first [ exact I
          | do 3 eexists; split; [reflexivity | lra] ].
Qed.

(** X3: with a clock that does not step back, every completed recording
    lasted at least [VIDEO_DURATION_SECONDS], measured from the call of
    [start_recording] to the return of [stop_recording]. *)
Theorem recording_lasts_full_duration (names : nat -> string)
    (inputs : list Input) (clock0 : Q) (fs0 : FileSystem) :
  Forall steady inputs ->
  Forall (fun d => VIDEO_DURATION_SECONDS <= d)
         (session_lengths (recorder_log (run names inputs (boot clock0 fs0)))).
Proof.
  intros H.
  apply (run_invariant names steady recording_clock); auto using recording_clock_step.
  split; [constructor | exact I].
Qed.

Lemma recording_lasts_full_duration_witness :
  Forall steady cycle_and_next /\
  session_lengths (recorder_log (run coco_names cycle_and_next (boot 1000 []))) <> [] /\
  Forall (fun d => VIDEO_DURATION_SECONDS <= d)
         (session_lengths (recorder_log (run coco_names cycle_and_next (boot 1000 [])))).
Proof.
  assert (H : Forall steady cycle_and_next) by (apply steady_forallb; vm_compute; reflexivity).
  assert (N : session_lengths (recorder_log (run coco_names cycle_and_next (boot 1000 [])))
              <> []) by (vm_compute; discriminate).
  exact (conj H (conj N (recording_lasts_full_duration coco_names cycle_and_next 1000 [] H))).
Defined.

Lemma never_triggered_step (names : nat -> string) (i : Input) (s : State) :
  trigger names (boxes i) = false -> never_triggered s -> never_triggered (step names i s).
Proof.
  unfold never_triggered, trigger. intros Hb (Hl & Hc & Hr & Ho).
  by_statement s i; cbn [pc picam2 recorder_log objects in_recording_branch] in Hl, Hc, Hr, Ho;
    try discriminate Hr;
    try (rewrite (Ho eq_refl));
    split_tests;
    cbn [goto elapse pc picam2 recorder_log objects in_recording_branch];
    repeat split;
    first [ assumption | discriminate | intros; assumption | intros E; discriminate E ].
Qed.

(** X4: as long as no poll returns a box with a target label, nothing is
    recorded: the recorder is never called, control never enters the
    recording branch, and the camera never takes the video
    configuration. *)
Theorem no_recording_without_target (names : nat -> string) (inputs : list Input)
    (clock0 : Q) (fs0 : FileSystem) :
  Forall (fun i => trigger names (boxes i) = false) inputs ->
  let s := run names inputs (boot clock0 fs0) in
  recorder_log s = [] /\
  configuration (picam2 s) <> Some video_config /\
  in_recording_branch (pc s) = false.
Proof.
  intros H s.
  assert (N : never_triggered s).
  { apply (run_invariant names (fun i => trigger names (boxes i) = false) never_triggered);
      auto using never_triggered_step.
    repeat split; discriminate. }
  destruct N as (A & B & C & _). auto.
Qed.

Lemma no_recording_without_target_witness :
  Forall (fun i => trigger coco_names (boxes i) = false) (startup ++ poll_kite ++ poll_kite) /\
  pc (run coco_names (startup ++ poll_kite ++ poll_kite) (boot 1000 [])) = L54 /\
  (recorder_log (run coco_names (startup ++ poll_kite ++ poll_kite) (boot 1000 [])) = [] /\
   configuration (picam2 (run coco_names (startup ++ poll_kite ++ poll_kite) (boot 1000 [])))
   <> Some video_config /\
   in_recording_branch (pc (run coco_names (startup ++ poll_kite ++ poll_kite) (boot 1000 [])))
   = false).
Proof.
  assert (H : Forall (fun i => trigger coco_names (boxes i) = false)
                     (startup ++ poll_kite ++ poll_kite))
    by (repeat constructor).
  assert (P : pc (run coco_names (startup ++ poll_kite ++ poll_kite) (boot 1000 [])) = L54)
    by (vm_compute; reflexivity).
  exact (conj H (conj P
          (no_recording_without_target coco_names (startup ++ poll_kite ++ poll_kite)
             1000 [] H))).
Defined.

(** ** The anchor and the clock *)

Lemma anchor_past_step (names : nat -> string) (clock0 : Q) (i : Input) (s : State) :
  steady i -> 0 <= clock0 ->
  timing s -> since_boot clock0 s -> anchor_past s -> anchor_past (step names i s).
Proof.
  unfold steady, timing, progress, since_boot, anchor_past.
  intros Hdt H0 [Hp _] (Hc & _ & _) [Ha Hb].
  by_statement s i; cbn [pc clock current_time last_detection_time recorder_log] in Hp, Hc, Ha, Hb;
    split_tests; sleep_is_positive; open_hyps; unfold_constants;
    (split; [lra | first [exact I | lra]]).
Qed.

(** X15: if the clock is not before the epoch when [main] is entered and
    does not step back, the anchor is never in the future: at every test of
    line 56 the difference [current_time - last_detection_time] is
    non-negative. *)
Theorem anchor_never_in_future (names : nat -> string) (inputs : list Input)
    (clock0 : Q) (fs0 : FileSystem) :
  0 <= clock0 -> Forall steady inputs ->
  let s := run names inputs (boot clock0 fs0) in
  last_detection_time s <= clock s /\
  (pc s = L56 -> 0 <= current_time s - last_detection_time s).
Proof.
  intros H0 Hin s.
  assert (J : timing s /\ since_boot clock0 s /\ anchor_past s).
  { apply (run_invariant names steady
             (fun st => timing st /\ since_boot clock0 st /\ anchor_past st));
      [ | exact Hin | ].
    - intros i st Hi (T & B & A).
      split; [apply timing_step; assumption|].
      split; [apply since_boot_step; assumption|].
      apply (anchor_past_step names clock0); assumption.
    - split; [apply timing_boot|]. split.
      + repeat split. cbn. lra.
      + split; cbn; [exact H0 | exact I]. }
  destruct J as (_ & _ & [Ha Hb]). split; [exact Ha|].
  intros Hpc. rewrite Hpc in Hb. lra.
Qed.

Lemma anchor_never_in_future_witness :
  0 <= 1000 /\ Forall steady cycle_and_next /\
  pc (run coco_names cycle_and_next (boot 1000 [])) = L56 /\
  last_detection_time (run coco_names cycle_and_next (boot 1000 []))
    <= clock (run coco_names cycle_and_next (boot 1000 [])) /\
  0 <= current_time (run coco_names cycle_and_next (boot 1000 []))
       - last_detection_time (run coco_names cycle_and_next (boot 1000 [])).
Proof.
  assert (Z0 : 0 <= 1000) by (unfold Qle; simpl; lia).
  assert (H : Forall steady cycle_and_next) by (apply steady_forallb; vm_compute; reflexivity).
  assert (P : pc (run coco_names cycle_and_next (boot 1000 [])) = L56)
    by (vm_compute; reflexivity).
  exact (conj Z0 (conj H (conj P (conj
          (proj1 (anchor_never_in_future coco_names cycle_and_next 1000 [] Z0 H))
          (proj2 (anchor_never_in_future coco_names cycle_and_next 1000 [] Z0 H) P))))).
Defined.

Lemma line_57_never_runs_witness :
  Forall steady (cycle_and_next ++ [ok 0]) /\ COOLDOWN_SECONDS <= 1000 /\
  pc (run coco_names (cycle_and_next ++ [ok 0]) (boot 1000 [])) <> L57.
Proof.
  assert (H : Forall steady (cycle_and_next ++ [ok 0]))
    by (apply steady_forallb; vm_compute; reflexivity).
  assert (C : COOLDOWN_SECONDS <= 1000) by (unfold Qle; simpl; lia).
  exact (conj H (conj C (line_57_never_runs coco_names (cycle_and_next ++ [ok 0])
                           1000 [] H C))).
Defined.

(** ** Pacing between polls *)

(** X12: with a clock that does not step back, the reading of line 54 of
    the next iteration is at least [DETECTION_INTERVAL_SECONDS] after the
    reading of this one; and when the iteration took less than the
    interval up to line 105, it is exactly one interval later plus the
    time the two pacing statements themselves take. *)
Theorem poll_period (names : nat -> string) (s : State) (i j k : Input) :
  pc s = L105 ->
  returns i -> returns j -> returns k -> steady i -> steady j ->
  let s' := run names [i; j; k] s in
  pc s' = L56 /\
  current_time s + DETECTION_INTERVAL_SECONDS <= current_time s' /\
  (clock s - current_time s < DETECTION_INTERVAL_SECONDS ->
   current_time s' == current_time s + DETECTION_INTERVAL_SECONDS + dt i + dt j).
Proof.
  unfold returns, steady.
  destruct s as [l clk ct ldt objs vf ttn cam fsys log], i as [oi di bi wi],
    j as [oj dj bj wj], k as [ok' dk bk wk].
  cbn [pc outcome dt clock current_time]. intros -> -> -> -> Hi Hj.
  cbn [run fold_left step exec terminal pc goto elapse set_time_to_next set_current_time
       clock current_time time_to_next outcome dt].
  unfold pacing_sleep, time_to_next_detection.
  destruct (Qltb 0 (DETECTION_INTERVAL_SECONDS - (clk - ct))) eqn:E;
    [apply Qltb_lt in E | apply Qltb_ge in E];
    cbn [step exec terminal pc goto elapse set_time_to_next set_current_time
         clock current_time time_to_next outcome dt];
    unfold_constants;
    (split; [reflexivity | split; [lra | intros Hp; lra]]).
Qed.

Lemma poll_period_witness :
  pc (run coco_names (startup ++ [ok 0; ok 0; ok (1 # 10); sees a_kite (3 # 10); ok 0])
        (boot 1000 [])) = L105 /\
  returns (ok (1 # 100)) /\ steady (ok (1 # 100)) /\
  (pc (run coco_names [ok (1 # 100); ok (1 # 100); ok (1 # 100)]
         (run coco_names (startup ++ [ok 0; ok 0; ok (1 # 10); sees a_kite (3 # 10); ok 0])
              (boot 1000 []))) = L56 /\
   current_time (run coco_names (startup ++ [ok 0; ok 0; ok (1 # 10); sees a_kite (3 # 10); ok 0])
                     (boot 1000 [])) + DETECTION_INTERVAL_SECONDS
   <= current_time
        (run coco_names [ok (1 # 100); ok (1 # 100); ok (1 # 100)]
           (run coco_names (startup ++ [ok 0; ok 0; ok (1 # 10); sees a_kite (3 # 10); ok 0])
                (boot 1000 [])))).
Proof.
  assert (P : pc (run coco_names
                    (startup ++ [ok 0; ok 0; ok (1 # 10); sees a_kite (3 # 10); ok 0])
                    (boot 1000 [])) = L105) by (vm_compute; reflexivity).
  assert (S : steady (ok (1 # 100))) by (unfold steady, Qle; simpl; lia).
  pose proof (poll_period coco_names _ (ok (1 # 100)) (ok (1 # 100)) (ok (1 # 100))
                P eq_refl eq_refl eq_refl S S) as T.
  exact (conj P (conj eq_refl (conj S (conj (proj1 T) (proj1 (proj2 T)))))).
Defined.

(** ** More on file names and triggers *)

Lemma lex_Eq (c r : comparison) : lex c r = Eq -> c = Eq /\ r = Eq.
Proof. destruct c; simpl; intros H; try discriminate H; auto. Qed.

(** X10: the order of two file names is the order of the six formatted
    fields of the readings they were made from: an earlier second gives a
    strictly smaller name, and two names are equal exactly when the
    readings agree down to the second, so recordings started in different
    seconds never share a file. *)
Theorem video_filename_order (d1 d2 : DateTime) :
  valid_datetime d1 -> valid_datetime d2 ->
  (fields_compare d1 d2 Eq = Lt ->
   String.ltb (video_filename_of (strftime d1)) (video_filename_of (strftime d2)) = true) /\
  (video_filename_of (strftime d1) = video_filename_of (strftime d2) <->
   year d1 = year d2 /\ month d1 = month d2 /\ day d1 = day d2 /\
   hour d1 = hour d2 /\ minute d1 = minute d2 /\ second d1 = second d2).
Proof.
  intros V1 V2. pose proof (video_filename_compare d1 d2 V1 V2) as C. split.
  - intros H. unfold String.ltb. now rewrite C, H.
  - split.
    + intros E. rewrite E, string_compare_refl in C. symmetry in C.
      unfold fields_compare in C.
      repeat match goal with
             | H : lex _ _ = Eq |- _ => apply lex_Eq in H; destruct H
             end.
      repeat match goal with
             | H : (_ ?= _)%Z = Eq |- _ => apply Z.compare_eq in H
             end.
      repeat split; assumption.
    + intros (Ey & Em & Ed & Eh & En & Es).
      unfold strftime, format_then. now rewrite Ey, Em, Ed, Eh, En, Es.
Qed.

Lemma video_filename_order_witness :
  valid_datetime noon /\ valid_datetime later /\ fields_compare noon later Eq = Lt /\
  String.ltb (video_filename_of (strftime noon)) (video_filename_of (strftime later)) = true.
Proof.
  assert (V1 : valid_datetime noon) by (unfold valid_datetime; simpl; lia).
  assert (V2 : valid_datetime later) by (unfold valid_datetime; simpl; lia).
  exact (conj V1 (conj V2 (conj eq_refl
          (proj1 (video_filename_order noon later V1 V2) eq_refl)))).
Defined.

Lemma is_target_Permutation (l1 l2 : list string) :
  Permutation l1 l2 -> existsb is_target l1 = existsb is_target l2.
Proof.
  induction 1 as [|x l1 l2 _ IH|x y l|l1 l2 l3 _ IH1 _ IH2]; simpl.
  - reflexivity.
  - now rewrite IH.
  - destruct (is_target x), (is_target y); reflexivity.
  - now rewrite IH1.
Qed.

(** X11: the trigger depends only on which classes were detected, not on
    their order or their confidences: two results whose class indices are
    a rearrangement of one another trigger alike, so no label has priority
    over another. *)
Theorem trigger_only_reads_classes (names : nat -> string) (bs1 bs2 : list Box) :
  Permutation (map cls bs1) (map cls bs2) ->
  trigger names bs1 = trigger names bs2.
Proof.
  intros H. unfold trigger, detected_objects.
  rewrite <- (map_map cls names bs1), <- (map_map cls names bs2).
  apply is_target_Permutation. now apply Permutation_map.
Qed.

Lemma trigger_only_reads_classes_witness :
  Permutation (map cls [mkBox 15 (9 # 10); mkBox 33 (6 # 10)])
              (map cls [mkBox 33 (1 # 10); mkBox 15 (2 # 10)]) /\
  trigger coco_names [mkBox 15 (9 # 10); mkBox 33 (6 # 10)]
  = trigger coco_names [mkBox 33 (1 # 10); mkBox 15 (2 # 10)].
Proof.
  assert (P : Permutation (map cls [mkBox 15 (9 # 10); mkBox 33 (6 # 10)])
                          (map cls [mkBox 33 (1 # 10); mkBox 15 (2 # 10)]))
    by apply perm_swap.
  exact (conj P (trigger_only_reads_classes coco_names _ _ P)).
Defined.

(** ** Whole iterations *)

Ltac name_inputs :=
  repeat match goal with
         | H : Forall _ (_ :: _) |- _ => inversion H; clear H; subst
         | H : Forall _ [] |- _ => clear H
         end;
  unfold returns, steady in *;
  repeat match goal with
         | i : Input |- _ =>
             let o := fresh "o" in let d := fresh "d" in
             let b := fresh "b" in let w := fresh "w" in
             destruct i as [o d b w]
         end;
  cbn [outcome dt boxes wall] in *; subst.

Lemma run_step_returns (names : nat -> string) (i : Input) (rest : list Input) (s : State) :
  terminal (pc s) = false -> outcome i = Returns ->
  run names (i :: rest) s = run names rest (elapse (dt i) (exec names i s)).
Proof. intros Ht Hi. rewrite run_cons. unfold step. now rewrite Ht, Hi. Qed.

(** Execute the next statement of a run from an explicit state. *)
Ltac state_normal_form :=
  cbv beta iota delta
      [exec terminal pc goto elapse set_current_time
       set_last_detection_time set_objects set_video_filename set_time_to_next
       set_picam2 set_fs record_event clock current_time last_detection_time
       objects video_filename time_to_next picam2 fs recorder_log outcome dt boxes wall].

Ltac next_statement :=
  rewrite run_step_returns by reflexivity; state_normal_form.

(** X2: a poll that finds the gate open and no target, all of whose
    statements return, switches nothing and records nothing: camera, log,
    anchor and file system are as before.  The next iteration starts at
    least [DETECTION_INTERVAL_SECONDS] after this one, and exactly that
    (plus the time of the two pacing statements) when the poll took less
    than the interval. *)
Theorem quiet_poll_changes_nothing (names : nat -> string) (s : State)
    (i54 i56 i61 i65 i69 i105 i106 : Input) :
  pc s = L54 ->
  Forall returns [i54; i56; i61; i65; i69; i105; i106] ->
  Forall steady [i54; i56; i61; i65; i69; i105; i106] ->
  isQuiet (clock s) (last_detection_time s) COOLDOWN_SECONDS = true ->
  trigger names (boxes i65) = false ->
  let s' := run names [i54; i56; i61; i65; i69; i105; i106] s in
  pc s' = L54 /\
  picam2 s' = picam2 s /\
  recorder_log s' = recorder_log s /\
  last_detection_time s' = last_detection_time s /\
  fs s' = fs s /\
  clock s + DETECTION_INTERVAL_SECONDS <= clock s' /\
  (total_dt [i54; i56; i61; i65; i69] < DETECTION_INTERVAL_SECONDS ->
   clock s' == clock s + DETECTION_INTERVAL_SECONDS + dt i105 + dt i106).
Proof.
  intros Hpc Hret Hst Hq Ht.
  destruct s as [l clk ct ldt objs vf ttn cam fsys log].
  cbn [pc clock last_detection_time picam2 recorder_log fs] in *. subst l.
  name_inputs.
  unfold isQuiet in Hq. apply negb_true_iff in Hq. unfold trigger in Ht.
  unfold total_dt. cbn [fold_right dt].
  next_statement. next_statement. rewrite Hq.
  next_statement. next_statement. next_statement. rewrite Ht.
  next_statement. next_statement.
  unfold pacing_sleep, time_to_next_detection.
  match goal with
  | |- context [Qltb 0 ?t] =>
      destruct (Qltb 0 t) eqn:E; [apply Qltb_lt in E | apply Qltb_ge in E]
  end;
    cbn [run fold_left]; state_normal_form;
    unfold_constants;
    (split; [reflexivity|]); (split; [reflexivity|]); (split; [reflexivity|]);
    (split; [reflexivity|]); (split; [reflexivity|]);
    (split; [lra | intros Hp; lra]).
Qed.

(** X13: a poll that finds the gate open and a target, all of whose
    statements return, makes exactly one recording: one [start_recording]
    on the file named after the reading of line 79, at least the settle
    delay after the poll began, and one [stop_recording] at least
    [VIDEO_DURATION_SECONDS] later.  It leaves the camera running in the
    detection configuration with no output open, sets the anchor to the
    reading of line 54, and takes no pacing sleep: the iteration lasts the
    time of its statements plus the settle delay and the recording
    duration, and the next poll follows at once. *)
Theorem triggered_poll_records_once (names : nat -> string) (s : State)
    (i54 i56 i61 i65 i69 i70 i73 i76 i79 i86 i89 i91 i92 i99 i102 i105 i106 : Input) :
  let inputs := [i54; i56; i61; i65; i69; i70; i73; i76; i79; i86; i89; i91; i92; i99;
                 i102; i105; i106] in
  pc s = L54 ->
  Forall returns inputs -> Forall steady inputs ->
  isQuiet (clock s) (last_detection_time s) COOLDOWN_SECONDS = true ->
  trigger names (boxes i65) = true ->
  let s' := run names inputs s in
  pc s' = L54 /\
  (exists t1 t2,
     recorder_log s'
     = Stopped t2 :: Started (video_filename_of (strftime (wall i79))) t1 :: recorder_log s /\
     clock s + SETTLE_SECONDS <= t1 /\ t1 + VIDEO_DURATION_SECONDS <= t2) /\
  picam2 s' = mkCam (Some detection_config) true None /\
  last_detection_time s' = clock s /\
  clock s' == clock s + total_dt inputs + SETTLE_SECONDS + VIDEO_DURATION_SECONDS.
Proof.
  intros inputs Hpc Hret Hst Hq Ht. subst inputs.
  destruct s as [l clk ct ldt objs vf ttn cam fsys log].
  cbn [pc clock last_detection_time picam2 recorder_log fs] in *. subst l.
  name_inputs.
  unfold isQuiet in Hq. apply negb_true_iff in Hq. unfold trigger in Ht.
  unfold total_dt. cbn [fold_right dt].
  next_statement. next_statement. rewrite Hq.
  next_statement. next_statement. next_statement. rewrite Ht.
  do 12 next_statement.
  unfold pacing_sleep, time_to_next_detection.
  match goal with
  | |- context [Qltb 0 ?t] =>
      destruct (Qltb 0 t) eqn:E; [apply Qltb_lt in E | apply Qltb_ge in E]
  end;
    unfold_constants; [exfalso; lra|].
  cbn [run fold_left]. state_normal_form.
  split; [reflexivity|]. split.
  - do 2 eexists. split; [reflexivity|]. split; lra.
  - split; [reflexivity|]. split; [reflexivity|]. lra.
Qed.

Lemma quiet_poll_changes_nothing_witness :
  pc (run coco_names startup (boot 1000 [])) = L54 /\
  Forall returns poll_kite /\ Forall steady poll_kite /\
  isQuiet (clock (run coco_names startup (boot 1000 [])))
          (last_detection_time (run coco_names startup (boot 1000 [])))
          COOLDOWN_SECONDS = true /\
  trigger coco_names a_kite = false /\
  pc (run coco_names poll_kite (run coco_names startup (boot 1000 []))) = L54 /\
  recorder_log (run coco_names poll_kite (run coco_names startup (boot 1000 [])))
  = recorder_log (run coco_names startup (boot 1000 [])) /\
  clock (run coco_names startup (boot 1000 [])) + DETECTION_INTERVAL_SECONDS
  <= clock (run coco_names poll_kite (run coco_names startup (boot 1000 []))).
Proof.
  assert (P : pc (run coco_names startup (boot 1000 [])) = L54) by (vm_compute; reflexivity).
  assert (R : Forall returns poll_kite) by (repeat constructor).
  assert (S : Forall steady poll_kite) by (apply steady_forallb; vm_compute; reflexivity).
  assert (Q : isQuiet (clock (run coco_names startup (boot 1000 [])))
                      (last_detection_time (run coco_names startup (boot 1000 [])))
                      COOLDOWN_SECONDS = true) by (vm_compute; reflexivity).
  assert (T : trigger coco_names a_kite = false) by reflexivity.
  unfold poll_kite in *.
  pose proof (quiet_poll_changes_nothing coco_names _ _ _ _ _ _ _ _ P R S Q T)
    as (A & _ & B & _ & _ & C & _).
  exact (conj P (conj R (conj S (conj Q (conj T (conj A (conj B C))))))).
Defined.

Lemma triggered_poll_records_once_witness :
  pc (run coco_names startup (boot 1000 [])) = L54 /\
  Forall returns triggered_cycle /\ Forall steady triggered_cycle /\
  isQuiet (clock (run coco_names startup (boot 1000 [])))
          (last_detection_time (run coco_names startup (boot 1000 [])))
          COOLDOWN_SECONDS = true /\
  trigger coco_names a_cat = true /\
  pc (run coco_names triggered_cycle (run coco_names startup (boot 1000 []))) = L54 /\
  picam2 (run coco_names triggered_cycle (run coco_names startup (boot 1000 [])))
  = mkCam (Some detection_config) true None /\
  last_detection_time (run coco_names triggered_cycle (run coco_names startup (boot 1000 [])))
  = clock (run coco_names startup (boot 1000 [])).
Proof.
  assert (P : pc (run coco_names startup (boot 1000 [])) = L54) by (vm_compute; reflexivity).
  assert (R : Forall returns triggered_cycle) by (repeat constructor).
  assert (S : Forall steady triggered_cycle) by (apply steady_forallb; vm_compute; reflexivity).
  assert (Q : isQuiet (clock (run coco_names startup (boot 1000 [])))
                      (last_detection_time (run coco_names startup (boot 1000 [])))
                      COOLDOWN_SECONDS = true) by (vm_compute; reflexivity).
  assert (T : trigger coco_names a_cat = true) by reflexivity.
  unfold triggered_cycle in *.
  pose proof (triggered_poll_records_once coco_names _ _ _ _ _ _ _ _ _ _ _ _ _ _ _ _ _ _
                P R S Q T) as (A & _ & B & C & _).
  exact (conj P (conj R (conj S (conj Q (conj T (conj A (conj B C))))))).
Defined.

(** X14: when lines 23-52 all return, [main] enters the loop with the
    camera running in the detection configuration and no output open, the
    output folder present, the anchor at [0] and nothing recorded. *)
Theorem startup_reaches_loop (names : nat -> string) (clock0 : Q) (fs0 : FileSystem)
    (i23 i30 i42 i45 i48 i49 i52 : Input) :
  Forall returns [i23; i30; i42; i45; i48; i49; i52] ->
  let s := run names [i23; i30; i42; i45; i48; i49; i52] (boot clock0 fs0) in
  pc s = L54 /\
  picam2 s = mkCam (Some detection_config) true None /\
  fs s = ensure_video_folder fs0 /\
  os_path_exists VIDEO_FOLDER (fs s) = true /\
  last_detection_time s = 0 /\
  recorder_log s = [] /\
  clock s == clock0 + total_dt [i23; i30; i42; i45; i48; i49; i52].
Proof.
  intros Hret. unfold boot. name_inputs.
  unfold total_dt. cbn [fold_right dt].
  do 7 next_statement.
  cbn [run fold_left]. state_normal_form.
  split; [reflexivity|]. split; [reflexivity|]. split; [reflexivity|].
  split; [apply ensure_video_folder_exists|].
  split; [reflexivity|]. split; [reflexivity|]. lra.
Qed.

Lemma startup_reaches_loop_witness :
  Forall returns startup /\
  pc (run coco_names startup (boot 1000 [])) = L54 /\
  picam2 (run coco_names startup (boot 1000 [])) = mkCam (Some detection_config) true None /\
  os_path_exists VIDEO_FOLDER (fs (run coco_names startup (boot 1000 []))) = true.
Proof.
  assert (R : Forall returns startup) by (repeat constructor).
  unfold startup in *.
  pose proof (startup_reaches_loop coco_names 1000 [] _ _ _ _ _ _ _ R)
    as (A & B & _ & C & _).
  exact (conj R (conj A (conj B C))).
Defined.

(** X16: an iteration that finds the gate closed does not poll: the test
    of line 56 leads to the sleep of line 57 and back to line 54, at least
    [IDLE_SECONDS] later, with the camera, the detections, the anchor and
    the log untouched. *)
Theorem closed_gate_skips_poll (names : nat -> string) (s : State) (i54 i56 i57 : Input) :
  pc s = L54 ->
  Forall returns [i54; i56; i57] -> Forall steady [i54; i56; i57] ->
  isQuiet (clock s) (last_detection_time s) COOLDOWN_SECONDS = false ->
  let s' := run names [i54; i56; i57] s in
  pc s' = L54 /\
  picam2 s' = picam2 s /\
  objects s' = objects s /\
  recorder_log s' = recorder_log s /\
  last_detection_time s' = last_detection_time s /\
  clock s + IDLE_SECONDS <= clock s'.
Proof.
  intros Hpc Hret Hst Hq.
  destruct s as [l clk ct ldt objs vf ttn cam fsys log].
  cbn [pc clock last_detection_time picam2 recorder_log objects] in *. subst l.
  name_inputs.
  unfold isQuiet in Hq. apply negb_false_iff in Hq.
  next_statement. next_statement. rewrite Hq. next_statement.
  cbn [run fold_left]. state_normal_form. unfold_constants.
  split; [reflexivity|]. split; [reflexivity|]. split; [reflexivity|].
  split; [reflexivity|]. split; [reflexivity|]. lra.
Qed.

Lemma closed_gate_skips_poll_witness :
  pc (run coco_names startup (boot 10 [])) = L54 /\
  Forall returns [ok 0; ok 0; ok 0] /\ Forall steady [ok 0; ok 0; ok 0] /\
  isQuiet (clock (run coco_names startup (boot 10 [])))
          (last_detection_time (run coco_names startup (boot 10 [])))
          COOLDOWN_SECONDS = false /\
  pc (run coco_names [ok 0; ok 0; ok 0] (run coco_names startup (boot 10 []))) = L54 /\
  clock (run coco_names startup (boot 10 [])) + IDLE_SECONDS
  <= clock (run coco_names [ok 0; ok 0; ok 0] (run coco_names startup (boot 10 []))).
Proof.
  assert (P : pc (run coco_names startup (boot 10 [])) = L54) by (vm_compute; reflexivity).
  assert (R : Forall returns [ok 0; ok 0; ok 0]) by (repeat constructor).
  assert (S : Forall steady [ok 0; ok 0; ok 0]) by (apply steady_forallb; vm_compute; reflexivity).
  assert (Q : isQuiet (clock (run coco_names startup (boot 10 [])))
                      (last_detection_time (run coco_names startup (boot 10 [])))
                      COOLDOWN_SECONDS = false) by (vm_compute; reflexivity).
  pose proof (closed_gate_skips_poll coco_names _ _ _ _ P R S Q) as (A & _ & _ & _ & _ & C).
  exact (conj P (conj R (conj S (conj Q (conj A C))))).
Defined.
